(** * DiagnosticGenerator (language-server/diagnostics.ts)

    A shallow embedding of the diagnostics handler of the Polymer editor
    service and the properties of its reporting cycles, code actions and
    fix application.

    The handler is written against three collaborators whose code lives in
    other modules: the converter between analyzer and protocol values, the
    lint rule registry and the lint engine itself.  The first two are
    interfaces here (type classes); the lint engine and the edit applier are
    the only operations the handler awaits, and they are events of the
    [Async] monad below. *)

From Stdlib Require Import String Ascii List Bool Arith Lia.
Import ListNotations.
Local Open Scope string_scope.
Local Open Scope list_scope.

Set Implicit Arguments.

(** ** Values of polymer-analyzer *)

Record SourcePosition : Type := mkPos { line : nat; column : nat }.

Record SourceRange : Type :=
  mkRange { file : string; start : SourcePosition; end_ : SourcePosition }.

Record Replacement : Type :=
  mkReplacement { range : SourceRange; replacementText : string }.

(** An [Edit] is an array of replacements. *)
Definition Edit : Type := list Replacement.

Record Action : Type :=
  mkAction { kind : string; description : string; edit : Edit }.

(** [warning.fix] and [warning.actions] are optional properties; an array,
    even an empty one, is truthy, so [Some []] and [None] differ. *)
Record Warning : Type :=
  mkWarning { code : string;
              sourceRange : SourceRange;
              fix_ : option Edit;
              actions : option (list Action) }.

(** A handle on the analysis a lint pass ran against ([warnings.analysis]). *)
Inductive Analysis : Type := AnalysisOf (generation : nat).

(** The array returned by [lint] and [lintPackage], with its [analysis]. *)
Record LintResult : Type :=
  mkLintResult { warnings : list Warning; analysis : Analysis }.

Record EditResult : Type :=
  mkEditResult { appliedEdits : list Edit; incompatibleEdits : list Edit }.

(** ** Values of vscode-languageserver *)

Record Position : Type := mkLPos { lline : nat; character : nat }.
Record Range : Type := mkLRange { lstart : Position; lend : Position }.

Record Diagnostic : Type :=
  mkDiagnostic { drange : Range; dcode : string; message : string }.

Record TextEdit : Type := mkTextEdit { trange : Range; newText : string }.

Module TextEditNS.
Definition replace (r : Range) (text : string) : TextEdit := mkTextEdit r text.
End TextEditNS.

(** Changes by document URI. *)
Definition WorkspaceEdit : Type := list (string * list TextEdit).

Record Command : Type :=
  mkCommand { title : string; command : string; arguments : list WorkspaceEdit }.

Module CommandNS.
Definition create (t c : string) (arg : WorkspaceEdit) : Command :=
  mkCommand t c [arg].
End CommandNS.

Record CodeActionParams : Type :=
  mkCodeActionParams { textDocument : string;          (* its uri *)
                       requestRange : Range;
                       contextDiagnostics : list Diagnostic }.

(** A call of [connection.sendDiagnostics]. *)
Record PublishDiagnosticsParams : Type :=
  mkPublish { uri : string; diagnostics : list Diagnostic }.

(** ** Settings *)

Record LintConfig : Type := mkLintConfig { lintRules : option (list string) }.
Record ProjectConfig : Type := mkProjectConfig { lint : option LintConfig }.

(** The [newer] and [older] values of the settings change stream. *)
Record SettingsJson : Type := mkSettingsJson { analyzeWholePackageOf : bool }.

Record Settings : Type :=
  mkSettings { analyzeWholePackage : bool; projectConfig : ProjectConfig }.

(** ** polymer-linter *)

Record Rule : Type := mkRule { ruleCode : string }.

(** [new Linter(rules, analyzer)]; the analyzer is the same object for the
    whole life of the handler. *)
Record Linter : Type := mkLinter { rules : list Rule }.

Definition Error : Type := string.

(** ** JavaScript [Set<string>]: membership plus insertion order *)

Module JSSet.
Definition t : Type := list string.

Definition empty : t := [].

Definition has (s : t) (x : string) : bool := existsb (String.eqb x) s.

(** [s.add(x)]: a new element goes last, a present one keeps its place. *)
Definition add (s : t) (x : string) : t := if has s x then s else s ++ [x].

(** [s.delete(x)]. *)
Definition delete (s : t) (x : string) : t :=
  filter (fun y => negb (String.eqb x y)) s.

(** [new Set(iterable)]. *)
Definition of_list (l : list string) : t := fold_left add l empty.

(** Iteration, in insertion order. *)
Definition elements (s : t) : list string := s.
End JSSet.

(** ** JavaScript [Map<string, V>]: lookup plus insertion order *)

Module JSMap.
Definition t (V : Type) : Type := list (string * V).

Definition empty {V} : t V := [].

Fixpoint get {V} (m : t V) (k : string) : option V :=
  match m with
  | [] => None
  | (k', v) :: m' => if String.eqb k k' then Some v else get m' k
  end.

(** [m.set(k, v)]: a present key keeps its place. *)
Fixpoint set {V} (m : t V) (k : string) (v : V) : t V :=
  match m with
  | [] => [(k, v)]
  | (k', v') :: m' =>
      if String.eqb k k' then (k', v) :: m' else (k', v') :: set m' k v
  end.

Definition keys {V} (m : t V) : list string := map fst m.

Definition entries {V} (m : t V) : list (string * V) := m.
End JSMap.

(** ** The state the handler runs against

    [urisReportedWarningsFor] and [linter] are fields of the handler;
    [settings] and [documents] are the collaborators it only reads
    ([documents] stands for [documents.keys()]). *)

Record World : Type :=
  mkWorld { urisReportedWarningsFor : JSSet.t;
            linter : Linter;
            settings : Settings;
            documents : list string }.

Definition withReported (w : World) (s : JSSet.t) : World :=
  mkWorld s (linter w) (settings w) (documents w).

Definition withLinter (w : World) (l : Linter) : World :=
  mkWorld (urisReportedWarningsFor w) l (settings w) (documents w).

(** ** Asynchronous programs

    Synchronous steps ([Sync]) run to completion; the only places where a
    handler gives up control are its [await]s, and the only things awaited
    in this file are the lint engine and [applyEdits] ([Awaitable]). *)

Inductive Sync : Type -> Type :=
| GetUrisReported : Sync JSSet.t
| PutUrisReported : JSSet.t -> Sync unit
| GetLinter : Sync Linter
| PutLinter : Linter -> Sync unit
| GetAnalyzeWholePackage : Sync bool
| GetProjectConfig : Sync ProjectConfig
| DocumentsKeys : Sync (list string)
| SendDiagnostics : PublishDiagnosticsParams -> Sync unit.

Inductive Awaitable : Type -> Type :=
| LintPackage : Linter -> Awaitable LintResult
| Lint : Linter -> list string -> Awaitable LintResult
| ApplyEdits : list Edit -> Analysis -> Awaitable EditResult.

(** What an awaited promise settles to: rejected or fulfilled. *)
Definition Settled (X : Type) : Type := (Error + X)%type.

Inductive Async (A : Type) : Type :=
| Ret : A -> Async A
| Throw : Error -> Async A
| Do : forall X : Type, Sync X -> (X -> Async A) -> Async A
| Await : forall X : Type, Awaitable X -> (Settled X -> Async A) -> Async A.

Arguments Ret {A} _.
Arguments Throw {A} _.
Arguments Do {A X} _ _.
Arguments Await {A X} _ _.

Fixpoint bind {A B : Type} (p : Async A) (f : A -> Async B) : Async B :=
  match p with
  | Ret a => f a
  | Throw e => Throw e
  | Do c k => Do c (fun x => bind (k x) f)
  | Await r k => Await r (fun o => bind (k o) f)
  end.

Definition perform {X : Type} (c : Sync X) : Async X := Do c Ret.

(** [await p]: the value of a fulfilled promise, the exception of a
    rejected one. *)
Definition await {X : Type} (r : Awaitable X) : Async X :=
  Await r (fun o => match o with inl e => Throw e | inr x => Ret x end).

Declare Scope async_scope.
Delimit Scope async_scope with async.
Notation "x <- p ;; q" := (bind p (fun x => q))
  (at level 61, p at next level, right associativity) : async_scope.
Notation "p ;; q" := (bind p (fun _ => q))
  (at level 61, right associativity) : async_scope.
Local Open Scope async_scope.

(** [for (const x of l) body]. *)
Fixpoint forEach {X : Type} (l : list X) (body : X -> Async unit) : Async unit :=
  match l with
  | [] => Ret tt
  | x :: l' => body x ;; forEach l' body
  end.

(** One synchronous step: its value, the world after it, what it sent. *)
Definition exec {X : Type} (c : Sync X) (w : World)
  : X * World * list PublishDiagnosticsParams :=
  match c in Sync X return X * World * list PublishDiagnosticsParams with
  | GetUrisReported => (urisReportedWarningsFor w, w, [])
  | PutUrisReported s => (tt, withReported w s, [])
  | GetLinter => (linter w, w, [])
  | PutLinter l => (tt, withLinter w l, [])
  | GetAnalyzeWholePackage => (analyzeWholePackage (settings w), w, [])
  | GetProjectConfig => (projectConfig (settings w), w, [])
  | DocumentsKeys => (documents w, w, [])
  | SendDiagnostics p => (tt, w, [p])
  end.

(** How a run ends: with a value, with an exception, or parked at an
    [await] with the rest of the program. *)
Inductive Outcome (A : Type) : Type :=
| Done : A -> Outcome A
| Failed : Error -> Outcome A
| Suspended : forall X : Type, Awaitable X -> (Settled X -> Async A) -> Outcome A.

Arguments Done {A} _.
Arguments Failed {A} _.
Arguments Suspended {A X} _ _.

Record Ran (A : Type) : Type :=
  mkRan { outcome : Outcome A; world : World; sent : list PublishDiagnosticsParams }.

Definition after {A} (out : list PublishDiagnosticsParams) (r : Ran A) : Ran A :=
  mkRan (outcome r) (world r) (out ++ sent r).

(** Run up to the first suspension point. *)
Fixpoint runSync {A : Type} (p : Async A) (w : World) : Ran A :=
  match p with
  | Ret a => mkRan (Done a) w []
  | Throw e => mkRan (Failed e) w []
  | Do c k => let '(x, w', out) := exec c w in after out (runSync (k x) w')
  | Await r k => mkRan (Suspended r k) w []
  end.

(** The lint engine and the edit applier as seen by one run. *)
Definition Engine : Type := forall X : Type, Awaitable X -> Settled X.

(** Run to the end with nothing else scheduled in between: every awaited
    promise settles as [engine] says. *)
Fixpoint run {A : Type} (engine : Engine) (p : Async A) (w : World) : Ran A :=
  match p with
  | Ret a => mkRan (Done a) w []
  | Throw e => mkRan (Failed e) w []
  | Do c k => let '(x, w', out) := exec c w in after out (run engine (k x) w')
  | Await r k => run engine (k (engine _ r)) w
  end.

(** ** Collaborators of the handler *)

(** [AnalyzerLSPConverter] (./converter): the methods the handler calls.
    Methods taking [{uri}] or a text document take its URI here. *)
Class AnalyzerLSPConverter : Type :=
  { getWorkspacePathToFile : string -> string;
    getUriForLocalPath : string -> string;
    convertWarningToDiagnostic : Warning -> Diagnostic;
    convertLRangeToP : Range -> string -> SourceRange;
    convertPRangeToL : SourceRange -> Range;
    editToWorkspaceEdit : Edit -> WorkspaceEdit;
    editsToWorkspaceEdit : list Edit -> WorkspaceEdit }.

(** [registry] of polymer-linter: [getRules] throws on a name it does not
    know. *)
Class Registry : Type :=
  { getRules : list string -> Error + list Rule }.

(** [applyEditCommandName] (./commands). *)
Class Commands : Type :=
  { applyEditCommandName : string }.

(** Positions in reading order: by line, then by column. *)
Definition positionLeb (p q : SourcePosition) : bool :=
  ((line p <? line q) || ((line p =? line q) && (column p <=? column q)))%nat.

Definition positionLtb (p q : SourcePosition) : bool :=
  ((line p <? line q) || ((line p =? line q) && (column p <? column q)))%nat.

(** Modelled from the spec: [isPositionInsideRange] belongs to
    polymer-analyzer and is not among the sources of this module.  The
    specification asks that a position "lie within the outer range,
    inclusive": with [includeEdges] the position is neither before the start
    nor after the end of the range, both ends included.  The handler only
    ever passes [true]; without the edges both comparisons are strict. *)
Definition isPositionInsideRange
  (position : SourcePosition) (outer : SourceRange) (includeEdges : bool) : bool :=
  if includeEdges
  then positionLeb (start outer) position && positionLeb position (end_ outer)
  else positionLtb (start outer) position && positionLtb position (end_ outer).

Definition isRangeInside (inner outer : SourceRange) : bool :=
  isPositionInsideRange (start inner) outer true &&
  isPositionInsideRange (end_ inner) outer true.

(** [s.split('\n')[0]]. *)
Fixpoint firstLine (s : string) : string :=
  match s with
  | EmptyString => EmptyString
  | String c s' =>
      if Ascii.eqb c "010"%char then EmptyString else String c (firstLine s')
  end.

Definition isSome {X : Type} (o : option X) : bool :=
  match o with Some _ => true | None => false end.

(** Modelled from the spec: [Handler.handleErrors] (./util) is not among the
    sources of this module.  The handler passes it the promise of
    [getCodeActions] and a fallback value.  Section 7 of the specification
    requires that a failure of the lint engine during a code-action request
    propagate to the caller of the request and surface as an error of that
    request.  The only exceptions a promise carries in this development are
    failures of the awaited engines, so a rejection is passed on; the
    fallback value is left for errors the specification wants kept from the
    editor, and none of those arises here. *)
Fixpoint handleErrors {A : Type} (promise : Async A) (fallbackValue : A) : Async A :=
  match promise with
  | Ret a => Ret a
  | Throw e => Throw e
  | Do c k => Do c (fun x => handleErrors (k x) fallbackValue)
  | Await r k => Await r (fun o => handleErrors (k o) fallbackValue)
  end.

(** ** The handler *)

Section DiagnosticGenerator.

Context {converter : AnalyzerLSPConverter}.
Context {registry : Registry}.
Context {commands : Commands}.

Definition DiagnosticsByUri : Type := JSMap.t (list Diagnostic).

Definition sendDiagnostics (u : string) (ds : list Diagnostic) : Async unit :=
  perform (SendDiagnostics (mkPublish u ds)).

(** The body of the loop of [reportPackageWarnings] over one warning. *)
Definition packageStep (warning : Warning)
  (reportedLastTime : JSSet.t) (diagnosticsByUri : DiagnosticsByUri)
  : Async (JSSet.t * DiagnosticsByUri) :=
  let uri := getUriForLocalPath (file (sourceRange warning)) in
  let reportedLastTime := JSSet.delete reportedLastTime uri in
  reported <- perform GetUrisReported ;;
  perform (PutUrisReported (JSSet.add reported uri)) ;;
  (* [diagnostics] is the array the map holds for [uri]: the push below is
     seen through the map. *)
  let '(diagnostics, diagnosticsByUri) :=
    match JSMap.get diagnosticsByUri uri with
    | Some diagnostics => (diagnostics, diagnosticsByUri)
    | None => ([], JSMap.set diagnosticsByUri uri [])
    end in
  let diagnosticsByUri :=
    JSMap.set diagnosticsByUri uri
      (diagnostics ++ [convertWarningToDiagnostic warning]) in
  Ret (reportedLastTime, diagnosticsByUri).

Fixpoint packageLoop (warnings : list Warning)
  (reportedLastTime : JSSet.t) (diagnosticsByUri : DiagnosticsByUri)
  : Async (JSSet.t * DiagnosticsByUri) :=
  match warnings with
  | [] => Ret (reportedLastTime, diagnosticsByUri)
  | warning :: rest =>
      st <- packageStep warning reportedLastTime diagnosticsByUri ;;
      packageLoop rest (fst st) (snd st)
  end.

Definition reportPackageWarnings (warnings : list Warning) : Async unit :=
  reported <- perform GetUrisReported ;;
  let reportedLastTime := JSSet.of_list (JSSet.elements reported) in
  perform (PutUrisReported JSSet.empty) ;;
  st <- packageLoop warnings reportedLastTime JSMap.empty ;;
  let reportedLastTime := fst st in
  let diagnosticsByUri := snd st in
  forEach (JSMap.entries diagnosticsByUri)
          (fun e => sendDiagnostics (fst e) (snd e)) ;;
  forEach (JSSet.elements reportedLastTime)
          (fun uriWithNoWarnings => sendDiagnostics uriWithNoWarnings []) ;;
  perform (PutUrisReported (JSSet.of_list (JSMap.keys diagnosticsByUri))).

(** The loop of the open-documents branch of [reportWarnings]. *)
Definition openStep (diagnosticsByUri : DiagnosticsByUri) (warning : Warning)
  : DiagnosticsByUri :=
  let diagnostic := convertWarningToDiagnostic warning in
  let uri := getUriForLocalPath (file (sourceRange warning)) in
  let diagnostics :=
    match JSMap.get diagnosticsByUri uri with
    | Some diagnostics => diagnostics
    | None => []
    end in
  JSMap.set diagnosticsByUri uri (diagnostics ++ [diagnostic]).

Definition reportWarnings : Async unit :=
  wholePackage <- perform GetAnalyzeWholePackage ;;
  if wholePackage then
    linter <- perform GetLinter ;;
    result <- await (LintPackage linter) ;;
    reportPackageWarnings (warnings result)
  else
    linter <- perform GetLinter ;;
    keys <- perform DocumentsKeys ;;
    result <- await (Lint linter (map getWorkspacePathToFile keys)) ;;
    let diagnosticsByUri := fold_left openStep (warnings result) JSMap.empty in
    forEach (JSMap.entries diagnosticsByUri)
            (fun e => sendDiagnostics (fst e) (snd e)).

(** *** The listeners registered by the constructor

    A listener that ends in [this.reportWarnings()] does not await it;
    since the call is its last statement, what the listener and the cycle
    do to the world is the sequence below. *)

Definition onDidCloseTextDocument (closedUri : string) : Async unit :=
  wholePackage <- perform GetAnalyzeWholePackage ;;
  if negb wholePackage then sendDiagnostics closedUri [] else Ret tt.

Definition updateLinter : Async unit :=
  projectConfig <- perform GetProjectConfig ;;
  let rules : list Rule :=
    match lint projectConfig with
    | Some lintConfig =>
        match lintRules lintConfig with
        | Some names =>
            match getRules names with
            | inr found => found
            | inl _ => []
            end
        | None => []
        end
    | None => []
    end in
  perform (PutLinter (mkLinter rules)) ;;
  reportWarnings.

Definition onProjectConfigChange : Async unit := updateLinter.

Definition onFileChanges : Async unit := reportWarnings.

Definition onSettingsChange (newer older : SettingsJson) : Async unit :=
  if negb (Bool.eqb (analyzeWholePackageOf newer) (analyzeWholePackageOf older))
  then
    (if analyzeWholePackageOf newer then
       keys <- perform DocumentsKeys ;;
       perform (PutUrisReported (JSSet.of_list keys))
     else
       reported <- perform GetUrisReported ;;
       forEach (JSSet.elements reported) (fun uri => sendDiagnostics uri [])) ;;
    reportWarnings
  else Ret tt.

(** *** Fixes *)

Definition getAllFixes : Async WorkspaceEdit :=
  linter <- perform GetLinter ;;
  result <- await (LintPackage linter) ;;
  let fixes :=
    fold_left (fun fixes warning =>
                 match fix_ warning with
                 | Some f => fixes ++ [f]
                 | None => fixes
                 end) (warnings result) [] in
  applied <- await (ApplyEdits fixes (analysis result)) ;;
  Ret (editsToWorkspaceEdit (appliedEdits applied)).

(** The first loop of [getFixesForFile]. *)
Definition collectFixes (path : string) (edits : list Edit) (warning : Warning)
  : list Edit :=
  match fix_ warning with
  | None => edits
  | Some f =>
      if existsb (fun repl => negb (file (range repl) =? path)) f
      then edits
      else edits ++ [f]
  end.

(** The second, nested loop of [getFixesForFile]. *)
Definition toTextEdits (applied : list Edit) : list TextEdit :=
  fold_left
    (fun textEdits appliedEdit =>
       fold_left
         (fun textEdits replacement =>
            textEdits ++
              [TextEditNS.replace (convertPRangeToL (range replacement))
                                  (replacementText replacement)])
         appliedEdit textEdits)
    applied [].

Definition getFixesForFile (documentUri : string) : Async (list TextEdit) :=
  let path := getWorkspacePathToFile documentUri in
  linter <- perform GetLinter ;;
  result <- await (Lint linter [path]) ;;
  let edits := fold_left (collectFixes path) (warnings result) [] in
  applied <- await (ApplyEdits edits (analysis result)) ;;
  Ret (toTextEdits (appliedEdits applied)).

(** *** Code actions *)

Definition createApplyEditCommand (title : string) (e : Edit) : Command :=
  CommandNS.create title applyEditCommandName (editToWorkspaceEdit e).

(** The body of the loop of [getCodeActions] over one warning. *)
Definition codeActionStep (requestedRange : SourceRange)
  (commands : list Command) (warning : Warning) : list Command :=
  if (negb (isSome (fix_ warning)) &&
      match actions warning with
      | None => true
      | Some l => (length l =? 0)%nat
      end)
     || negb (isRangeInside (sourceRange warning) requestedRange)
  then commands
  else
    let commands :=
      match fix_ warning with
      | Some f =>
          commands ++
            [createApplyEditCommand
               ("Quick fix the '" ++ code warning ++ "' warning") f]
      | None => commands
      end in
    match actions warning with
    | Some l =>
        fold_left
          (fun commands action =>
             if negb (kind action =? "edit") then commands
             else commands ++
                    [createApplyEditCommand (firstLine (description action))
                                            (edit action)])
          l commands
    | None => commands
    end.

Definition getCodeActions (req : CodeActionParams) : Async (list Command) :=
  if (length (contextDiagnostics req) =? 0)%nat then Ret []
  else
    linter <- perform GetLinter ;;
    result <- await (Lint linter [getWorkspacePathToFile (textDocument req)]) ;;
    let requestedRange :=
      convertLRangeToP (requestRange req) (textDocument req) in
    Ret (fold_left (codeActionStep requestedRange) (warnings result) []).

Definition onCodeAction (req : CodeActionParams) : Async (list Command) :=
  handleErrors (getCodeActions req) [].

End DiagnosticGenerator.

(** ** Calls whose promise is dropped

    [f();] as a statement, for an async function [f]: the call returns a
    promise that the caller neither awaits nor catches.  What [f] does takes
    place; the caller completes normally whatever becomes of the promise,
    and a rejection is delivered to nobody. *)
Fixpoint unawaited {A : Type} (p : Async A) : Async unit :=
  match p with
  | Ret _ => Ret tt
  | Throw _ => Ret tt
  | Do c k => Do c (fun x => unawaited (k x))
  | Await r k => Await r (fun o => unawaited (k o))
  end.

Section ListenersAsCalled.

Context {converter : AnalyzerLSPConverter}.
Context {registry : Registry}.

(** [fileSynchronizer.fileChanges.listen(() => { this.reportWarnings(); })],
    as the file synchronizer sees its listener run. *)
Definition fileChangesListener : Async unit := unawaited reportWarnings.

(** [settings.projectConfigChangeStream.listen(() => { this.updateLinter(); })]:
    [updateLinter] is synchronous and ends in [this.reportWarnings();]. *)
Definition projectConfigChangeListener : Async unit := unawaited updateLinter.

(** The listener of [settings.changeStream]: synchronous, and on a toggle
    it ends in [this.reportWarnings();]. *)
Definition settingsChangeListener (newer older : SettingsJson) : Async unit :=
  unawaited (onSettingsChange newer older).

End ListenersAsCalled.

(** ** Reading programs and runs *)

(** A program that never gives up control. *)
Inductive AwaitFree {A : Type} : Async A -> Prop :=
| AwaitFree_Ret : forall a, AwaitFree (Ret a)
| AwaitFree_Throw : forall e, AwaitFree (Throw e)
| AwaitFree_Do : forall X (c : Sync X) k,
    (forall x, AwaitFree (k x)) -> AwaitFree (Do c k).

(** The uses of [urisReportedWarningsFor] made by a run. *)
Inductive Access : Type :=
| ReadOfReported : Access
| AssignmentOfReported : JSSet.t -> Access.

Definition accessOf {X : Type} (c : Sync X) : list Access :=
  match c with
  | GetUrisReported => [ReadOfReported]
  | PutUrisReported s => [AssignmentOfReported s]
  | _ => []
  end.

Fixpoint accesses {A : Type} (engine : Engine) (p : Async A) (w : World)
  : list Access :=
  match p with
  | Ret _ => []
  | Throw _ => []
  | Do c k => let '(x, w', _) := exec c w in accessOf c ++ accesses engine (k x) w'
  | Await r k => accesses engine (k (engine _ r)) w
  end.

(** The requests a run awaits, in order. *)
Inductive Request : Type :=
| Requested : forall X : Type, Awaitable X -> Request.

Arguments Requested {X} _.

Fixpoint requests {A : Type} (engine : Engine) (p : Async A) (w : World)
  : list Request :=
  match p with
  | Ret _ => []
  | Throw _ => []
  | Do c k => let '(x, w', _) := exec c w in requests engine (k x) w'
  | Await r k => Requested r :: requests engine (k (engine _ r)) w
  end.

Definition isClearOf (u : string) (p : PublishDiagnosticsParams) : bool :=
  (uri p =? u) && (length (diagnostics p) =? 0)%nat.

(** The number of publishes of an empty array for [u]. *)
Definition clears (u : string) (out : list PublishDiagnosticsParams) : nat :=
  length (filter (isClearOf u) out).

(** The number of publishes for [u], empty or not. *)
Definition publishes (u : string) (out : list PublishDiagnosticsParams) : nat :=
  length (filter (fun p => uri p =? u) out).

(** ** The handler under interleaving

    Listeners start on stimuli and run until they finish or park at an
    [await]; a parked task resumes when its promise settles, in any order
    relative to other stimuli. *)

Inductive Task : Type :=
| Parked : forall X : Type, Awaitable X -> (Settled X -> Async unit) -> Task.

Arguments Parked {X} _ _.

Record Server : Type :=
  mkServer { now : World;
             parked : list Task;
             published : list PublishDiagnosticsParams }.

Definition park (r : Ran unit) (tasks : list Task) : list Task :=
  match outcome r with
  | Suspended req k => tasks ++ [Parked req k]
  | _ => tasks
  end.

Definition resumeWith (r : Ran unit) (tasks : list Task) (s : Server) : Server :=
  mkServer (world r) (park r tasks) (published s ++ sent r).

Definition spawn (p : Async unit) (s : Server) : Server :=
  resumeWith (runSync p (now s)) (parked s) s.

Fixpoint dropNth {X : Type} (i : nat) (l : list X) : list X :=
  match i, l with
  | _, [] => []
  | O, _ :: l' => l'
  | S i', x :: l' => x :: dropNth i' l'
  end.

Definition withSettings (w : World) (st : Settings) : World :=
  mkWorld (urisReportedWarningsFor w) (linter w) st (documents w).

Definition withDocuments (w : World) (keys : list string) : World :=
  mkWorld (urisReportedWarningsFor w) (linter w) (settings w) keys.

Definition onWorld (f : World -> World) (s : Server) : Server :=
  mkServer (f (now s)) (parked s) (published s).

Inductive Stimulus : Type :=
| FileChanges : Stimulus
| DidCloseTextDocument : string -> Stimulus
| ProjectConfigChange : ProjectConfig -> Stimulus
| SettingsChange : SettingsJson -> Stimulus
| DocumentsBecome : list string -> Stimulus
| Settles : nat -> Engine -> Stimulus.

Section Interleaving.

Context {converter : AnalyzerLSPConverter}.
Context {registry : Registry}.

(** Modelled from the spec: the settings object (./settings), the open
    documents (vscode-languageserver) and the file synchronizer are not
    among the sources of this module.  Following section 6 of the
    specification they provide the current analysis mode and project
    configuration, the list of open documents, and change streams: a
    change of the settings or of the project configuration is in place
    when its listeners run, and the settings listener receives the new
    and the previous values. *)
Definition react (s : Server) (e : Stimulus) : Server :=
  match e with
  | FileChanges => spawn onFileChanges s
  | DidCloseTextDocument u => spawn (onDidCloseTextDocument u) s
  | ProjectConfigChange cfg =>
      let st := settings (now s) in
      spawn onProjectConfigChange
            (onWorld (fun w => withSettings w (mkSettings (analyzeWholePackage st) cfg)) s)
  | SettingsChange newer =>
      let st := settings (now s) in
      let older := mkSettingsJson (analyzeWholePackage st) in
      spawn (onSettingsChange newer older)
            (onWorld (fun w => withSettings w (mkSettings (analyzeWholePackageOf newer)
                                                          (projectConfig st))) s)
  | DocumentsBecome keys => onWorld (fun w => withDocuments w keys) s
  | Settles i engine =>
      match nth_error (parked s) i with
      | Some (Parked req k) =>
          resumeWith (runSync (k (engine _ req)) (now s)) (dropNth i (parked s)) s
      | None => s
      end
  end.

Definition reacts (s : Server) (es : list Stimulus) : Server :=
  fold_left react es s.

(** A parked reporting cycle: it waits for its lint pass and, once the
    pass is in, does the rest of [reportWarnings] for the mode it started
    in. *)
Definition CycleTask (t : Task) : Prop :=
  match t with
  | Parked req k =>
      match req in Awaitable X return (Settled X -> Async unit) -> Prop with
      | LintPackage _ => fun k =>
          (forall result, k (inr result) = reportPackageWarnings (warnings result)) /\
          (forall e, k (inl e) = Throw e)
      | Lint _ _ => fun k =>
          (forall result,
              k (inr result) =
              forEach (JSMap.entries (fold_left openStep (warnings result) JSMap.empty))
                      (fun e => sendDiagnostics (fst e) (snd e))) /\
          (forall e, k (inl e) = Throw e)
      | ApplyEdits _ _ => fun _ => False
      end k
  end.

(** A listener that, started in [w], runs up to its end or to the lint
    request of a reporting cycle and leaves [reported] as the reported
    set. *)
Definition StartsCycle (p : Async unit) (w : World) (reported : JSSet.t) : Prop :=
  urisReportedWarningsFor (world (runSync p w)) = reported /\
  match outcome (runSync p w) with
  | Suspended req k => CycleTask (Parked req k)
  | _ => True
  end.

(** The set a stimulus puts in place of the reported set, if it puts one:
    the URIs of a complete lint pass when the pass of a parked
    whole-package cycle comes in, the open documents on a switch into
    whole-package mode. *)
Definition replaces (s : Server) (e : Stimulus) : option JSSet.t :=
  match e with
  | SettingsChange newer =>
      if analyzeWholePackageOf newer && negb (analyzeWholePackage (settings (now s)))
      then Some (JSSet.of_list (documents (now s)))
      else None
  | Settles i engine =>
      match nth_error (parked s) i with
      | Some (Parked req k) =>
          match req in Awaitable X return Settled X -> option JSSet.t with
          | LintPackage _ => fun o =>
              match o with
              | inr result =>
                  Some (JSSet.of_list
                          (map (fun warning =>
                                  getUriForLocalPath (file (sourceRange warning)))
                               (warnings result)))
              | inl _ => None
              end
          | _ => fun _ => None
          end (engine _ req)
      | None => None
      end
  | _ => None
  end.

End Interleaving.

(** ** A small workspace to run the handler on *)

Module Sample.

Definition lrange (r : SourceRange) : Range :=
  mkLRange (mkLPos (line (start r)) (column (start r)))
           (mkLPos (line (end_ r)) (column (end_ r))).

Definition textEditOf (r : Replacement) : TextEdit :=
  TextEditNS.replace (lrange (range r)) (replacementText r).

Definition converter : AnalyzerLSPConverter :=
  {| getWorkspacePathToFile := fun u => substring 8 (String.length u - 8) u;
     getUriForLocalPath := fun p => ("file:///" ++ p)%string;
     convertWarningToDiagnostic :=
       fun w => mkDiagnostic (lrange (sourceRange w)) (code w) "lint";
     convertLRangeToP :=
       fun r u => mkRange (substring 8 (String.length u - 8) u)
                          (mkPos (lline (lstart r)) (character (lstart r)))
                          (mkPos (lline (lend r)) (character (lend r)));
     convertPRangeToL := lrange;
     editToWorkspaceEdit :=
       fun e => map (fun r => (("file:///" ++ file (range r))%string, [textEditOf r])) e;
     editsToWorkspaceEdit :=
       fun es => map (fun r => (("file:///" ++ file (range r))%string, [textEditOf r]))
                     (concat es) |}.

Definition knownRule (name : string) : bool :=
  (name =? "dom-module-invalid-attrs") || (name =? "undefined-elements").

Definition registry : Registry :=
  {| getRules := fun names =>
       if forallb knownRule names then inr (map mkRule names)
       else inl "Could not find lint rule" |}.

Definition commands : Commands :=
  {| applyEditCommandName := "polymer-ide/applyEdit" |}.

Definition span (f : string) (l1 c1 l2 c2 : nat) : SourceRange :=
  mkRange f (mkPos l1 c1) (mkPos l2 c2).

Definition fixA : Edit := [mkReplacement (span "a.js" 0 4 0 9) "const"].
Definition fixAB : Edit :=
  [mkReplacement (span "a.js" 2 0 2 3) "let";
   mkReplacement (span "b.js" 7 0 7 3) "let"].

Definition w1 : Warning := mkWarning "no-var" (span "a.js" 0 4 0 9) (Some fixA) None.
Definition w2 : Warning := mkWarning "unused" (span "a.js" 2 0 2 3) (Some fixAB) None.
Definition w3 : Warning := mkWarning "semi" (span "c.js" 1 0 1 1) None None.
Definition w4 : Warning :=
  mkWarning "rename" (span "a.js" 0 4 0 9) None
            (Some [mkAction "edit" ("Rename it" ++ String "010"%char "everywhere")%string fixA]).
Definition w5 : Warning :=
  mkWarning "note" (span "a.js" 0 4 0 9) None (Some [mkAction "info" "Read this" []]).

Definition engineWith (package single : list Warning) : Engine :=
  fun X req =>
    match req in Awaitable X return Settled X with
    | LintPackage _ => inr (mkLintResult package (AnalysisOf 1))
    | Lint _ _ => inr (mkLintResult single (AnalysisOf 1))
    | ApplyEdits edits _ => inr (mkEditResult edits [])
    end.

Definition brokenEngine : Engine :=
  fun X req =>
    match req in Awaitable X return Settled X with
    | LintPackage _ => inl "parse error"
    | Lint _ _ => inl "parse error"
    | ApplyEdits edits _ => inr (mkEditResult edits [])
    end.

Definition uriA : string := "file:///a.js".
Definition uriB : string := "file:///b.js".
Definition uriC : string := "file:///c.js".

Definition worldOf (reported : JSSet.t) (wholePackage : bool) (open : list string)
  : World :=
  mkWorld reported (mkLinter []) (mkSettings wholePackage (mkProjectConfig None)) open.

Definition badConfig : ProjectConfig :=
  mkProjectConfig (Some (mkLintConfig (Some ["no-such-rule"]))).

Definition request (ctx : list Diagnostic) : CodeActionParams :=
  mkCodeActionParams uriA (mkLRange (mkLPos 0 4) (mkLPos 0 9)) ctx.

Definition aDiagnostic : Diagnostic :=
  mkDiagnostic (mkLRange (mkLPos 0 4) (mkLPos 0 9)) "no-var" "lint".

(** Whole-package mode, [a.js] and [b.js] reported last time. *)
Definition packageWorld : World := worldOf [uriA; uriB] true [uriA].

(** Open-documents mode, [a.js] open. *)
Definition openWorld : World := worldOf [uriA; uriC] false [uriA].

(** Whole-package mode just switched on, [a.js] and [b.js] open. *)
Definition switchedWorld : World := worldOf [uriC] true [uriA; uriB].

(** A project configuration naming an unknown rule. *)
Definition badWorld : World :=
  mkWorld [uriA] (mkLinter [mkRule "undefined-elements"])
          (mkSettings true badConfig) [uriA].

Definition lintsC : Engine := engineWith [w3] [].
Definition lintsA : Engine := engineWith [w1] [w1; w2; w4; w5].

Definition toPackage : SettingsJson := mkSettingsJson true.
Definition toOpen : SettingsJson := mkSettingsJson false.

Definition idle (w : World) : Server := mkServer w [] [].

End Sample.

(** ** Derived notions used in the statements *)

Section Notions.

Context {converter : AnalyzerLSPConverter}.

(** The URI a warning is reported under. *)
Definition warningUri (warning : Warning) : string :=
  getUriForLocalPath (file (sourceRange warning)).

(** The URIs of the files carrying warnings in a pass, in lint order. *)
Definition urisOf (ws : list Warning) : list string := map warningUri ws.

Definition publishOf (e : string * list Diagnostic) : PublishDiagnosticsParams :=
  mkPublish (fst e) (snd e).

Definition clearOf (u : string) : PublishDiagnosticsParams := mkPublish u [].

(** The batches of a pass: warnings grouped by URI. *)
Definition grouped (ws : list Warning) : DiagnosticsByUri :=
  fold_left openStep ws JSMap.empty.

(** Does a fix stay inside [path]? *)
Definition fixWithin (path : string) (f : Edit) : bool :=
  forallb (fun repl => file (range repl) =? path) f.

(** The fixes attached to the warnings of a pass, in lint order. *)
Definition fixesOf (ws : list Warning) : list Edit :=
  flat_map (fun w => match fix_ w with Some f => [f] | None => [] end) ws.

Definition isEdit (action : Action) : bool := kind action =? "edit".

(** Has the warning an action of kind "edit"? *)
Definition hasEditAction (warning : Warning) : bool :=
  match actions warning with
  | Some l => existsb isEdit l
  | None => false
  end.

(** The command offered for an action. *)
Definition actionCommand {commands : Commands} (action : Action) : Command :=
  createApplyEditCommand (firstLine (description action)) (edit action).

(** The command offered for the fix of a warning. *)
Definition fixCommand {commands : Commands} (warning : Warning) (f : Edit) : Command :=
  createApplyEditCommand ("Quick fix the '" ++ code warning ++ "' warning") f.

(** The text edit made of one replacement. *)
Definition replacementTextEdit (replacement : Replacement) : TextEdit :=
  TextEditNS.replace (convertPRangeToL (range replacement))
                     (replacementText replacement).

(** The commands one warning contributes to a code-action answer. *)
Definition commandsFor {commands : Commands}
           (requestedRange : SourceRange) (warning : Warning) : list Command :=
  codeActionStep requestedRange [] warning.

(** The lint request a cycle starts with, by mode. *)
Definition cycleRequest (w : World) : Awaitable LintResult :=
  if analyzeWholePackage (settings w) then LintPackage (linter w)
  else Lint (linter w) (map getWorkspacePathToFile (documents w)).

End Notions.

(** ** What the editor shows, and other notions of the further properties *)

(** The diagnostics the editor shows for [u] after the publishes [out]: those
    of the last publish for [u], none when there was no publish for it. *)
Definition shown (out : list PublishDiagnosticsParams) (u : string) : list Diagnostic :=
  match find (fun p => uri p =? u) (rev out) with
  | Some p => diagnostics p
  | None => []
  end.

(** The actions of kind "edit" of a warning. *)
Definition editActions (warning : Warning) : list Action :=
  match actions warning with
  | Some l => filter isEdit l
  | None => []
  end.

(** The diagnostics of the warnings of a pass that are reported under [u],
    in lint order. *)
Definition diagnosticsFor {converter : AnalyzerLSPConverter}
           (ws : list Warning) (u : string) : list Diagnostic :=
  map convertWarningToDiagnostic (filter (fun w => warningUri w =? u) ws).

(** Does the string hold a line feed? *)
Fixpoint hasLineFeed (s : string) : bool :=
  match s with
  | EmptyString => false
  | String c s' => Ascii.eqb c "010"%char || hasLineFeed s'
  end.

(** More of the sample workspace. *)
Module SampleMore.

(** A project configuration naming a rule the registry knows. *)
Definition goodWorld : World :=
  mkWorld [] (mkLinter [])
          (mkSettings true
                      (mkProjectConfig (Some (mkLintConfig (Some ["undefined-elements"])))))
          [Sample.uriA].

(** The lint succeeds and [applyEdits] throws. *)
Definition applyFails : Engine :=
  fun X req =>
    match req in Awaitable X return Settled X with
    | LintPackage _ => inr (mkLintResult [Sample.w1] (AnalysisOf 1))
    | Lint _ _ => inr (mkLintResult [Sample.w1; Sample.w2] (AnalysisOf 1))
    | ApplyEdits _ _ => inl "cannot load file"
    end.

(** The editor shows one diagnostic, for [u]. *)
Definition showing (u : string) : list PublishDiagnosticsParams :=
  [mkPublish u [Sample.aDiagnostic]].

Definition diagnosticOf (w : Warning) : Diagnostic :=
  @convertWarningToDiagnostic Sample.converter w.

End SampleMore.

(** * Properties *)

(** ** JavaScript sets and maps *)

Module JSSetFacts.
Import JSSet.

Lemma has_In (s : t) (x : string) : has s x = true <-> In x s.
Proof.
  unfold has. rewrite existsb_exists. split.
  - intros [y [Hy Heq]]. apply String.eqb_eq in Heq. now subst.
  - intros H. exists x. split; [assumption | apply String.eqb_refl].
Qed.

Lemma has_false (s : t) (x : string) : has s x = false <-> ~ In x s.
Proof.
  rewrite <- has_In. destruct (has s x); split; intros; congruence.
Qed.

Lemma add_In (s : t) (x y : string) : In y (add s x) <-> In y s \/ y = x.
Proof.
  unfold add. destruct (has s x) eqn:E.
  - apply has_In in E. split; [tauto | intros [H | ->]; assumption].
  - rewrite in_app_iff. simpl. intuition congruence.
Qed.

Lemma add_NoDup (s : t) (x : string) : NoDup s -> NoDup (add s x).
Proof.
  intros H. unfold add. destruct (has s x) eqn:E; [assumption |].
  apply has_false in E. apply NoDup_app; try assumption.
  - repeat constructor. simpl. tauto.
  - intros y Hy [<- | []]. contradiction.
Qed.

Lemma fold_add_In (l : list string) (s : t) (y : string) :
  In y (fold_left add l s) <-> In y s \/ In y l.
Proof.
  revert s. induction l as [| x l IH]; intros s; simpl.
  - tauto.
  - rewrite IH, add_In. intuition congruence.
Qed.

Lemma fold_add_NoDup (l : list string) (s : t) :
  NoDup s -> NoDup (fold_left add l s).
Proof.
  revert s. induction l as [| x l IH]; intros s H; simpl; [assumption |].
  apply IH, add_NoDup, H.
Qed.

Lemma of_list_In (l : list string) (y : string) : In y (of_list l) <-> In y l.
Proof. unfold of_list. rewrite fold_add_In. simpl. tauto. Qed.

Lemma of_list_NoDup (l : list string) : NoDup (of_list l).
Proof. apply fold_add_NoDup. constructor. Qed.

Lemma has_of_list (l : list string) (x : string) : has (of_list l) x = has l x.
Proof.
  destruct (has l x) eqn:E.
  - apply has_In, of_list_In, has_In, E.
  - apply has_false. rewrite of_list_In. apply has_false, E.
Qed.

(** Adding fresh, distinct elements appends them. *)
Lemma fold_add_fresh (l : list string) (s : t) :
  NoDup (s ++ l) -> fold_left add l s = s ++ l.
Proof.
  revert s. induction l as [| x l IH]; intros s H; simpl.
  - now rewrite app_nil_r.
  - assert (E : has s x = false).
    { apply has_false. intros Hin. apply NoDup_remove_2 in H.
      apply H. apply in_or_app. now left. }
    unfold add at 2. rewrite E.
    rewrite IH; rewrite <- app_assoc; simpl; [reflexivity | assumption].
Qed.

Lemma of_list_NoDup_id (l : list string) : NoDup l -> of_list l = l.
Proof. intros H. unfold of_list. now rewrite fold_add_fresh. Qed.

Lemma of_list_idem (l : list string) : of_list (of_list l) = of_list l.
Proof. apply of_list_NoDup_id, of_list_NoDup. Qed.

Lemma delete_In (s : t) (x y : string) : In y (delete s x) <-> In y s /\ y <> x.
Proof.
  unfold delete. rewrite filter_In.
  destruct (String.eqb_spec x y) as [-> | N]; simpl; intuition congruence.
Qed.

Lemma delete_NoDup (s : t) (x : string) : NoDup s -> NoDup (delete s x).
Proof. apply NoDup_filter. Qed.

(** Deleting the elements of [l] one by one keeps what is not in [l]. *)
Lemma fold_delete (l : list string) (s : t) :
  fold_left delete l s = filter (fun y => negb (has l y)) s.
Proof.
  revert s. induction l as [| x l IH]; intros s; simpl.
  - induction s as [| y s IHs]; simpl; [reflexivity | now rewrite <- IHs].
  - rewrite IH. unfold delete.
    induction s as [| y s IHs]; simpl; [reflexivity |].
    rewrite (String.eqb_sym y x).
    destruct (String.eqb x y); simpl; rewrite IHs; reflexivity.
Qed.

End JSSetFacts.

Module JSMapFacts.
Import JSMap.

Lemma get_None_has {V} (m : t V) (k : string) :
  get m k = None <-> JSSet.has (keys m) k = false.
Proof.
  induction m as [| [k' v] m IH]; simpl.
  - tauto.
  - destruct (String.eqb k k'); simpl; [split; discriminate | exact IH].
Qed.

Lemma keys_set {V} (m : t V) (k : string) (v : V) :
  keys (set m k v) = JSSet.add (keys m) k.
Proof.
  unfold JSSet.add.
  induction m as [| [k' v'] m IH]; simpl; [reflexivity |].
  destruct (String.eqb k k') eqn:E; simpl; [reflexivity |].
  rewrite IH. unfold keys. destruct (JSSet.has (map fst m) k); reflexivity.
Qed.

Lemma set_set {V} (m : t V) (k : string) (v v' : V) :
  set (set m k v) k v' = set m k v'.
Proof.
  induction m as [| [k' u] m IH]; simpl.
  - now rewrite String.eqb_refl.
  - destruct (String.eqb k k') eqn:E; simpl; rewrite E; [reflexivity |].
    now rewrite IH.
Qed.

(** A property of the values survives [set] when the new value has it. *)
Lemma set_Forall {V} (P : V -> Prop) (m : t V) (k : string) (v : V) :
  Forall (fun e => P (snd e)) m -> P v -> Forall (fun e => P (snd e)) (set m k v).
Proof.
  intros Hm Hv. induction m as [| [k' u] m IH]; simpl.
  - repeat constructor. exact Hv.
  - inversion Hm; subst. destruct (String.eqb k k'); constructor; auto.
Qed.

Lemma get_set_same {V} (m : t V) (k : string) (v : V) : get (set m k v) k = Some v.
Proof.
  induction m as [| [k' u] m IH]; simpl.
  - now rewrite String.eqb_refl.
  - destruct (String.eqb k k') eqn:E; simpl; rewrite E; [reflexivity | exact IH].
Qed.

Lemma get_set_other {V} (m : t V) (k k0 : string) (v : V) :
  k0 <> k -> get (set m k v) k0 = get m k0.
Proof.
  intros N. induction m as [| [k' u] m IH]; simpl.
  - destruct (String.eqb_spec k0 k); [contradiction | reflexivity].
  - destruct (String.eqb_spec k k') as [-> | N']; simpl.
    + destruct (String.eqb_spec k0 k'); [contradiction | reflexivity].
    + now rewrite IH.
Qed.

(** With each key once, an entry is what [get] finds. *)
Lemma In_get {V} (m : t V) (k : string) (v : V) :
  NoDup (keys m) -> In (k, v) m -> get m k = Some v.
Proof.
  induction m as [| [k' u] m IH]; simpl; intros Hnd Hin; [contradiction |].
  inversion Hnd as [| ? ? Hk' Hnd']; subst.
  destruct Hin as [E | Hin].
  - inversion E; subst. now rewrite String.eqb_refl.
  - destruct (String.eqb_spec k k') as [-> | N]; [| now apply IH].
    elim Hk'. apply (in_map fst) in Hin. exact Hin.
Qed.

End JSMapFacts.

(** ** Runs of asynchronous programs *)

Section Runs.

Lemma after_nil {A} (r : Ran A) : after [] r = r.
Proof. now destruct r. Qed.

Lemma after_after {A} (o1 o2 : list PublishDiagnosticsParams) (r : Ran A) :
  after o1 (after o2 r) = after (o1 ++ o2) r.
Proof. unfold after. simpl. now rewrite app_assoc. Qed.

Lemma withReported_same (w : World) : withReported w (urisReportedWarningsFor w) = w.
Proof. now destruct w. Qed.

Lemma withReported_twice (w : World) (s s' : JSSet.t) :
  withReported (withReported w s) s' = withReported w s'.
Proof. reflexivity. Qed.

(** What [bind] does to a run up to the first suspension point. *)
Lemma runSync_bind {A B} (p : Async A) (f : A -> Async B) (w : World) :
  runSync (bind p f) w =
  let r := runSync p w in
  match outcome r with
  | Done a => after (sent r) (runSync (f a) (world r))
  | Failed e => mkRan (Failed e) (world r) (sent r)
  | Suspended req k => mkRan (Suspended req (fun o => bind (k o) f)) (world r) (sent r)
  end.
Proof.
  revert w. induction p as [a | e | X c k IH | X req k IH]; intros w; simpl.
  - now rewrite after_nil.
  - reflexivity.
  - destruct (exec c w) as [[x w'] out]. rewrite IH. simpl.
    destruct (outcome (runSync (k x) w')); simpl;
      [now rewrite after_after | reflexivity | reflexivity].
  - reflexivity.
Qed.

Lemma runSync_bind_done {A B} (p : Async A) (f : A -> Async B) w a w' out :
  runSync p w = mkRan (Done a) w' out ->
  runSync (bind p f) w = after out (runSync (f a) w').
Proof. intros H. rewrite runSync_bind, H. reflexivity. Qed.

(** A complete run never ends parked. *)
Lemma run_not_suspended {A} (engine : Engine) (p : Async A) (w : World) :
  forall X (req : Awaitable X) k, outcome (run engine p w) <> Suspended req k.
Proof.
  revert w. induction p as [a | e | Y c k IH | Y r k IH]; intros w X req k'; simpl;
    try discriminate.
  - destruct (exec c w) as [[x w'] out]. simpl. apply IH.
  - apply IH.
Qed.

Lemma run_bind {A B} (engine : Engine) (p : Async A) (f : A -> Async B) (w : World) :
  run engine (bind p f) w =
  let r := run engine p w in
  match outcome r with
  | Done a => after (sent r) (run engine (f a) (world r))
  | _ => mkRan (match outcome r with Failed e => Failed e | _ => Failed "" end)
               (world r) (sent r)
  end.
Proof.
  revert w. induction p as [a | e | X c k IH | X req k IH]; intros w; simpl.
  - now rewrite after_nil.
  - reflexivity.
  - destruct (exec c w) as [[x w'] out]. rewrite IH. simpl.
    destruct (outcome (run engine (k x) w')); simpl;
      [now rewrite after_after | reflexivity | reflexivity].
  - apply IH.
Qed.

Lemma run_bind_done {A B} (engine : Engine) (p : Async A) (f : A -> Async B) w a w' out :
  run engine p w = mkRan (Done a) w' out ->
  run engine (bind p f) w = after out (run engine (f a) w').
Proof. intros H. rewrite run_bind, H. reflexivity. Qed.

(** Without an [await] the two ways of running agree, and the run ends. *)
Lemma AwaitFree_run {A} (engine : Engine) (p : Async A) :
  AwaitFree p -> forall w, run engine p w = runSync p w.
Proof.
  induction 1 as [a | e | X c k _ IH]; intros w; simpl; try reflexivity.
  destruct (exec c w) as [[x w'] out]. now rewrite IH.
Qed.

Lemma AwaitFree_not_suspended {A} (p : Async A) :
  AwaitFree p ->
  forall w X (req : Awaitable X) k, outcome (runSync p w) <> Suspended req k.
Proof.
  induction 1 as [a | e | Y c k _ IH]; intros w X req k'; simpl; try discriminate.
  destruct (exec c w) as [[x w'] out]. simpl. apply IH.
Qed.

Lemma AwaitFree_bind {A B} (p : Async A) (f : A -> Async B) :
  AwaitFree p -> (forall a, AwaitFree (f a)) -> AwaitFree (bind p f).
Proof.
  intros Hp Hf. induction Hp as [a | e | X c k _ IH]; simpl.
  - apply Hf.
  - constructor.
  - constructor. exact IH.
Qed.

Lemma AwaitFree_perform {X} (c : Sync X) : AwaitFree (perform c).
Proof. constructor. intros x. constructor. Qed.

Lemma AwaitFree_forEach {X} (l : list X) (body : X -> Async unit) :
  (forall x, AwaitFree (body x)) -> AwaitFree (forEach l body).
Proof.
  intros H. induction l as [| x l IH]; simpl.
  - constructor.
  - apply AwaitFree_bind; [apply H | intros _; exact IH].
Qed.

End Runs.

(** ** The reporting cycle, step by step *)

Section Reporting.

Context {converter : AnalyzerLSPConverter}.

Lemma runSync_forEach_send {X} (l : list X) (f : X -> string)
      (g : X -> list Diagnostic) (w : World) :
  runSync (forEach l (fun x => sendDiagnostics (f x) (g x))) w =
  mkRan (Done tt) w (map (fun x => mkPublish (f x) (g x)) l).
Proof.
  induction l as [| x l IH]; simpl; [reflexivity |].
  rewrite IH. reflexivity.
Qed.

Lemma runSync_packageStep warning reportedLastTime diagnosticsByUri w :
  runSync (packageStep warning reportedLastTime diagnosticsByUri) w =
  mkRan (Done (JSSet.delete reportedLastTime (warningUri warning),
               openStep diagnosticsByUri warning))
        (withReported w (JSSet.add (urisReportedWarningsFor w) (warningUri warning)))
        [].
Proof.
  unfold packageStep, openStep, warningUri. simpl.
  destruct (JSMap.get diagnosticsByUri _); simpl;
    [| rewrite JSMapFacts.set_set]; reflexivity.
Qed.

Lemma runSync_packageLoop ws reportedLastTime diagnosticsByUri w :
  runSync (packageLoop ws reportedLastTime diagnosticsByUri) w =
  mkRan (Done (fold_left JSSet.delete (urisOf ws) reportedLastTime,
               fold_left openStep ws diagnosticsByUri))
        (withReported w (fold_left JSSet.add (urisOf ws) (urisReportedWarningsFor w)))
        [].
Proof.
  revert reportedLastTime diagnosticsByUri w.
  induction ws as [| warning ws IH]; intros rl m w.
  - simpl. now rewrite withReported_same.
  - cbn [packageLoop].
    rewrite (runSync_bind_done _ _ _ (runSync_packageStep warning rl m w)).
    cbn [fst snd]. rewrite IH. reflexivity.
Qed.

(** The whole of [reportPackageWarnings] in one step: the batches, then
    the clears, and the set left behind. *)
Lemma runSync_reportPackageWarnings ws w :
  runSync (reportPackageWarnings ws) w =
  mkRan (Done tt)
        (withReported w (JSSet.of_list (JSMap.keys (grouped ws))))
        (map publishOf (grouped ws) ++
         map clearOf (fold_left JSSet.delete (urisOf ws)
                                (JSSet.of_list (urisReportedWarningsFor w)))).
Proof.
  unfold reportPackageWarnings.
  assert (R : runSync (perform GetUrisReported) w =
              mkRan (Done (urisReportedWarningsFor w)) w []) by reflexivity.
  rewrite (runSync_bind_done _ _ _ R). clear R.
  assert (P : runSync (perform (PutUrisReported JSSet.empty)) w =
              mkRan (Done tt) (withReported w JSSet.empty) []) by reflexivity.
  rewrite (runSync_bind_done _ _ _ P). clear P.
  rewrite (runSync_bind_done _ _ _ (runSync_packageLoop ws _ _ _)).
  cbn [fst snd].
  rewrite (runSync_bind_done _ _ _ (runSync_forEach_send _ _ _ _)).
  rewrite (runSync_bind_done _ _ _ (runSync_forEach_send _ _ _ _)).
  simpl. unfold after. simpl. rewrite app_nil_r. reflexivity.
Qed.

Lemma AwaitFree_packageLoop ws reportedLastTime diagnosticsByUri :
  AwaitFree (packageLoop ws reportedLastTime diagnosticsByUri).
Proof.
  revert reportedLastTime diagnosticsByUri.
  induction ws as [| warning ws IH]; intros rl m; cbn [packageLoop].
  - constructor.
  - apply AwaitFree_bind; [| intros st; apply IH].
    unfold packageStep.
    apply AwaitFree_bind; [apply AwaitFree_perform | intros reported].
    apply AwaitFree_bind; [apply AwaitFree_perform | intros _].
    destruct (JSMap.get m _); constructor.
Qed.

(** [reportPackageWarnings] has no suspension point. *)
Lemma AwaitFree_reportPackageWarnings ws : AwaitFree (reportPackageWarnings ws).
Proof.
  unfold reportPackageWarnings.
  apply AwaitFree_bind; [apply AwaitFree_perform | intros reported].
  apply AwaitFree_bind; [apply AwaitFree_perform | intros _].
  apply AwaitFree_bind; [apply AwaitFree_packageLoop | intros st].
  apply AwaitFree_bind;
    [apply AwaitFree_forEach; intros e; apply AwaitFree_perform | intros _].
  apply AwaitFree_bind;
    [apply AwaitFree_forEach; intros e; apply AwaitFree_perform | intros _].
  apply AwaitFree_perform.
Qed.

Lemma keys_openStep m warning :
  JSMap.keys (openStep m warning) = JSSet.add (JSMap.keys m) (warningUri warning).
Proof. unfold openStep. apply JSMapFacts.keys_set. Qed.

Lemma keys_fold_openStep ws m :
  JSMap.keys (fold_left openStep ws m) =
  fold_left JSSet.add (urisOf ws) (JSMap.keys m).
Proof.
  revert m. induction ws as [| warning ws IH]; intros m; simpl; [reflexivity |].
  now rewrite IH, keys_openStep.
Qed.

(** The keys of the batches are the URIs of the pass, each once, in the
    order of their first warning. *)
Lemma keys_grouped ws : JSMap.keys (grouped ws) = JSSet.of_list (urisOf ws).
Proof. unfold grouped. now rewrite keys_fold_openStep. Qed.

Lemma openStep_nonempty m warning :
  Forall (fun e => snd e <> []) m ->
  Forall (fun e => snd e <> []) (openStep m warning).
Proof.
  intros H. unfold openStep.
  apply (JSMapFacts.set_Forall (fun ds => ds <> [])); [exact H |].
  intros E. apply app_eq_nil in E. destruct E; discriminate.
Qed.

(** The batch of a URI after more warnings: what it held, then the
    diagnostics of the new warnings of that URI, in lint order. *)
Lemma get_fold_openStep ws m u :
  JSMap.get (fold_left openStep ws m) u =
  match filter (fun w => warningUri w =? u) ws with
  | [] => JSMap.get m u
  | l => Some (match JSMap.get m u with Some ds => ds | None => [] end ++
               map convertWarningToDiagnostic l)
  end.
Proof.
  revert m. induction ws as [| w ws IH]; intros m; simpl; [reflexivity |].
  rewrite IH. unfold openStep at 1 2. fold (warningUri w).
  destruct (String.eqb_spec (warningUri w) u) as [<- | N].
  - rewrite JSMapFacts.get_set_same.
    destruct (filter _ ws); simpl; [reflexivity | now rewrite <- app_assoc].
  - rewrite JSMapFacts.get_set_other by congruence. reflexivity.
Qed.

(** Every batch of a pass holds the diagnostics of the warnings of its
    URI, in lint order. *)
Lemma grouped_batches ws u ds :
  In (u, ds) (grouped ws) ->
  ds = map convertWarningToDiagnostic (filter (fun w => warningUri w =? u) ws).
Proof.
  intros Hin. apply JSMapFacts.In_get in Hin.
  - unfold grouped in Hin. rewrite get_fold_openStep in Hin. simpl in Hin.
    destruct (filter _ ws); [discriminate | now inversion Hin].
  - rewrite keys_grouped. apply JSSetFacts.of_list_NoDup.
Qed.

(** No batch of a pass is empty. *)
Lemma grouped_nonempty ws : Forall (fun e => snd e <> []) (grouped ws).
Proof.
  unfold grouped.
  assert (G : forall m, Forall (fun e : string * list Diagnostic => snd e <> []) m ->
                        Forall (fun e => snd e <> []) (fold_left openStep ws m)).
  { induction ws as [| warning ws IH]; intros m Hm; simpl; [exact Hm |].
    apply IH, openStep_nonempty, Hm. }
  apply G. constructor.
Qed.

End Reporting.

(** ** Counting clears *)

Section Clears.

Context {converter : AnalyzerLSPConverter}.

Lemma clears_app u (o1 o2 : list PublishDiagnosticsParams) :
  clears u (o1 ++ o2) = clears u o1 + clears u o2.
Proof. unfold clears. now rewrite filter_app, length_app. Qed.

(** A batch that carries diagnostics is not a clear. *)
Lemma clears_batches u (m : DiagnosticsByUri) :
  Forall (fun e => snd e <> []) m -> clears u (map publishOf m) = 0.
Proof.
  unfold clears. induction 1 as [| [k ds] m Hds _ IH]; simpl; [reflexivity |].
  unfold isClearOf at 1. simpl. destruct ds; [now elim Hds |].
  simpl. rewrite andb_false_r. exact IH.
Qed.

Lemma clears_clearOf_absent u (l : list string) :
  ~ In u l -> clears u (map clearOf l) = 0.
Proof.
  unfold clears. induction l as [| x l IH]; simpl; intros H; [reflexivity |].
  unfold isClearOf at 1. simpl.
  destruct (String.eqb_spec x u) as [-> | N]; simpl; [tauto |].
  apply IH. tauto.
Qed.

(** One clear per element of a set. *)
Lemma clears_clearOf u (l : list string) :
  NoDup l -> clears u (map clearOf l) = if JSSet.has l u then 1 else 0.
Proof.
  induction 1 as [| x l Hx Hl IH].
  - reflexivity.
  - change (map clearOf (x :: l)) with ([clearOf x] ++ map clearOf l).
    rewrite clears_app. unfold JSSet.has. simpl.
    destruct (String.eqb_spec u x) as [-> | N].
    + rewrite clears_clearOf_absent by assumption. unfold clears, isClearOf. simpl.
      now rewrite String.eqb_refl.
    + rewrite IH. unfold clears at 1, isClearOf. simpl.
      destruct (String.eqb_spec x u) as [E | _]; [congruence | reflexivity].
Qed.

Lemma has_filter (f : string -> bool) (s : list string) (u : string) :
  JSSet.has (filter f s) u = JSSet.has s u && f u.
Proof.
  unfold JSSet.has. induction s as [| x s IH]; simpl; [reflexivity |].
  destruct (f x) eqn:E; simpl; rewrite IH.
  - destruct (String.eqb_spec u x) as [-> | N]; simpl; [now rewrite E | reflexivity].
  - destruct (String.eqb_spec u x) as [-> | N]; simpl; [| reflexivity].
    now rewrite E, andb_false_r.
Qed.

(** The clears of one whole-package pass: one for each URI reported last
    time and without warnings now, none for any other. *)
Lemma clears_reportPackageWarnings ws w u :
  clears u (sent (runSync (reportPackageWarnings ws) w)) =
  if JSSet.has (urisReportedWarningsFor w) u && negb (JSSet.has (urisOf ws) u)
  then 1 else 0.
Proof.
  rewrite runSync_reportPackageWarnings. simpl.
  rewrite clears_app, (clears_batches u (grouped_nonempty ws)).
  rewrite JSSetFacts.fold_delete.
  rewrite clears_clearOf by (apply NoDup_filter, JSSetFacts.of_list_NoDup).
  rewrite has_filter, JSSetFacts.has_of_list. reflexivity.
Qed.

Lemma reported_reportPackageWarnings ws w :
  urisReportedWarningsFor (world (runSync (reportPackageWarnings ws) w)) =
  JSSet.of_list (urisOf ws).
Proof.
  rewrite runSync_reportPackageWarnings. simpl.
  now rewrite keys_grouped, JSSetFacts.of_list_idem.
Qed.

(** A whole-package cycle with nothing scheduled in between is its lint
    pass followed by [reportPackageWarnings]. *)
Lemma run_reportWarnings_package (engine : Engine) w result :
  analyzeWholePackage (settings w) = true ->
  engine _ (LintPackage (linter w)) = inr result ->
  run engine reportWarnings w = runSync (reportPackageWarnings (warnings result)) w.
Proof.
  intros Hmode Hlint. unfold reportWarnings, perform, await.
  cbn [bind run exec]. rewrite Hmode. cbn [bind run exec]. rewrite Hlint.
  cbn [bind after]. rewrite after_after, after_nil.
  apply AwaitFree_run, AwaitFree_reportPackageWarnings.
Qed.

End Clears.

(** ** Whole-package cycles *)

Section WholePackage.

Context {converter : AnalyzerLSPConverter}.

(** C1.  A whole-package reporting cycle, started with the set [R] of
    URIs reported last time and linting to warnings whose URIs are [S]:
    the cycle completes; every URI in [R] and not in [S] receives exactly
    one publish of an empty array; no other URI receives one; the set kept
    for the next cycle is [S] (each URI once, in the order of its first
    warning).  Hence a URI with warnings in one cycle and none in the next
    is cleared exactly once over the two cycles. *)
Theorem whole_package_cycle_diff (engine : Engine) (w : World) (result : LintResult) :
  analyzeWholePackage (settings w) = true ->
  engine _ (LintPackage (linter w)) = inr result ->
  let R := urisReportedWarningsFor w in
  let S := urisOf (warnings result) in
  let cycle := run engine reportWarnings w in
  outcome cycle = Done tt /\
  (forall u, In u R -> ~ In u S -> clears u (sent cycle) = 1) /\
  (forall u, ~ (In u R /\ ~ In u S) -> clears u (sent cycle) = 0) /\
  urisReportedWarningsFor (world cycle) = JSSet.of_list S /\
  (forall u, In u (urisReportedWarningsFor (world cycle)) <-> In u S) /\
  NoDup (urisReportedWarningsFor (world cycle)) /\
  (forall (engine' : Engine) (result' : LintResult) u,
      engine' _ (LintPackage (linter (world cycle))) = inr result' ->
      In u S -> ~ In u (urisOf (warnings result')) ->
      clears u (sent cycle ++ sent (run engine' reportWarnings (world cycle))) = 1).
Proof.
  intros Hmode Hlint R S cycle.
  assert (Ecycle : cycle = runSync (reportPackageWarnings (warnings result)) w)
    by (apply run_reportWarnings_package; assumption).
  assert (Hclears : forall u, clears u (sent cycle) =
                              if JSSet.has R u && negb (JSSet.has S u) then 1 else 0)
    by (intros u; rewrite Ecycle; apply clears_reportPackageWarnings).
  assert (Hset : urisReportedWarningsFor (world cycle) = JSSet.of_list S)
    by (rewrite Ecycle; apply reported_reportPackageWarnings).
  repeat split.
  - rewrite Ecycle, runSync_reportPackageWarnings. reflexivity.
  - intros u HR HS. rewrite Hclears.
    apply JSSetFacts.has_In in HR. apply JSSetFacts.has_false in HS.
    now rewrite HR, HS.
  - intros u H. rewrite Hclears.
    destruct (JSSet.has R u) eqn:ER; [| reflexivity].
    destruct (JSSet.has S u) eqn:ES; [reflexivity |].
    elim H. split; [apply JSSetFacts.has_In, ER | apply JSSetFacts.has_false, ES].
  - exact Hset.
  - rewrite Hset. apply JSSetFacts.of_list_In.
  - rewrite Hset. apply JSSetFacts.of_list_In.
  - rewrite Hset. apply JSSetFacts.of_list_NoDup.
  - intros engine' result' u Hlint' HS HS'.
    assert (Hmode' : analyzeWholePackage (settings (world cycle)) = true)
      by (rewrite Ecycle, runSync_reportPackageWarnings; exact Hmode).
    rewrite clears_app, Hclears.
    rewrite (run_reportWarnings_package engine' _ Hmode' Hlint').
    rewrite clears_reportPackageWarnings, Hset, JSSetFacts.has_of_list.
    apply JSSetFacts.has_In in HS. apply JSSetFacts.has_false in HS'.
    rewrite HS, HS'. simpl. now rewrite andb_false_r.
Qed.

End WholePackage.

(** ** Open-documents cycles and document close *)

Section OpenDocuments.

Context {converter : AnalyzerLSPConverter}.

Lemma count_NoDup (u : string) (l : list string) :
  NoDup l ->
  length (filter (fun x => x =? u) l) = if JSSet.has l u then 1 else 0.
Proof.
  unfold JSSet.has. induction 1 as [| x l Hx _ IH]; simpl; [reflexivity |].
  rewrite (String.eqb_sym u x).
  destruct (String.eqb_spec x u) as [-> | N]; simpl; [| exact IH].
  rewrite IH. apply JSSetFacts.has_false in Hx. unfold JSSet.has in Hx.
  now rewrite Hx.
Qed.

Lemma publishes_batches (u : string) (m : DiagnosticsByUri) :
  publishes u (map publishOf m) = length (filter (fun x => x =? u) (JSMap.keys m)).
Proof.
  unfold publishes. induction m as [| [k ds] m IH]; simpl; [reflexivity |].
  destruct (k =? u); simpl; now rewrite IH.
Qed.

(** Each URI of the pass has exactly one batch, no other URI has any. *)
Lemma publishes_grouped (u : string) (ws : list Warning) :
  publishes u (map publishOf (grouped ws)) =
  if JSSet.has (urisOf ws) u then 1 else 0.
Proof.
  rewrite publishes_batches, keys_grouped.
  rewrite count_NoDup by apply JSSetFacts.of_list_NoDup.
  now rewrite JSSetFacts.has_of_list.
Qed.

Lemma run_reportWarnings_open (engine : Engine) w result :
  analyzeWholePackage (settings w) = false ->
  engine _ (Lint (linter w) (map getWorkspacePathToFile (documents w))) = inr result ->
  run engine reportWarnings w =
  mkRan (Done tt) w (map publishOf (grouped (warnings result))).
Proof.
  intros Hmode Hlint. unfold reportWarnings, perform, await.
  cbn [bind run exec]. rewrite Hmode. cbn [bind run exec]. rewrite Hlint.
  cbn [bind after]. rewrite !after_nil.
  rewrite AwaitFree_run
    by (apply AwaitFree_forEach; intros e; apply AwaitFree_perform).
  apply (runSync_forEach_send (grouped (warnings result)) fst snd w).
Qed.

(** C7.  In open-documents-only mode a reporting cycle makes one lint
    request, for exactly the paths of the open documents; it publishes one
    batch for each URI that has warnings in the pass and none for any
    other URI; a batch holds the diagnostics of the warnings of its URI, in
    lint order, and is never empty, so no file is cleared; and the cycle
    leaves the world as it found it. *)
Theorem open_documents_cycle (engine : Engine) (w : World) (result : LintResult) :
  analyzeWholePackage (settings w) = false ->
  engine _ (Lint (linter w) (map getWorkspacePathToFile (documents w))) = inr result ->
  let S := urisOf (warnings result) in
  let cycle := run engine reportWarnings w in
  requests engine reportWarnings w =
    [Requested (Lint (linter w) (map getWorkspacePathToFile (documents w)))] /\
  outcome cycle = Done tt /\
  world cycle = w /\
  (forall u, In u S -> publishes u (sent cycle) = 1) /\
  (forall u, ~ In u S -> publishes u (sent cycle) = 0) /\
  (forall p, In p (sent cycle) ->
             diagnostics p <> [] /\
             diagnostics p =
             map convertWarningToDiagnostic
                 (filter (fun w => warningUri w =? uri p) (warnings result))) /\
  (forall u, clears u (sent cycle) = 0).
Proof.
  intros Hmode Hlint S cycle.
  assert (Ecycle : cycle = mkRan (Done tt) w (map publishOf (grouped (warnings result))))
    by (apply run_reportWarnings_open; assumption).
  repeat split; try (rewrite Ecycle; reflexivity).
  - unfold reportWarnings, perform, await. cbn [bind requests exec].
    rewrite Hmode. cbn [bind requests exec]. rewrite Hlint. cbn [bind].
    f_equal.
    assert (G : forall (l : list (string * list Diagnostic)) w',
               requests engine
                 (forEach l (fun e => sendDiagnostics (fst e) (snd e))) w' = []).
    { induction l as [| e l IH]; intros w'; simpl; [reflexivity | apply IH]. }
    apply G.
  - intros u Hu. rewrite Ecycle. simpl. rewrite publishes_grouped.
    apply JSSetFacts.has_In in Hu. fold S. now rewrite Hu.
  - intros u Hu. rewrite Ecycle. simpl. rewrite publishes_grouped.
    apply JSSetFacts.has_false in Hu. fold S. now rewrite Hu.
  - rewrite Ecycle in H. simpl in H.
    apply in_map_iff in H. destruct H as [e [<- He]].
    pose proof (grouped_nonempty (warnings result)) as G.
    rewrite Forall_forall in G. apply G, He.
  - rewrite Ecycle in H. simpl in H.
    apply in_map_iff in H. destruct H as [[u ds] [<- He]].
    simpl. now apply grouped_batches.
  - intros u. rewrite Ecycle. simpl.
    apply clears_batches, grouped_nonempty.
Qed.

(** C8.  The listener for a closed document awaits nothing and leaves the
    world alone; in open-documents-only mode it sends exactly one publish,
    an empty array for the closed document, and in whole-package mode it
    sends nothing. *)
Theorem close_clears_when_open_only (closedUri : string) (w : World) :
  AwaitFree (onDidCloseTextDocument closedUri) /\
  runSync (onDidCloseTextDocument closedUri) w =
    mkRan (Done tt) w
          (if analyzeWholePackage (settings w) then []
           else [mkPublish closedUri []]) /\
  (forall engine : Engine,
      run engine (onDidCloseTextDocument closedUri) w =
      runSync (onDidCloseTextDocument closedUri) w /\
      requests engine (onDidCloseTextDocument closedUri) w = []).
Proof.
  assert (F : AwaitFree (onDidCloseTextDocument closedUri)).
  { unfold onDidCloseTextDocument.
    apply AwaitFree_bind; [apply AwaitFree_perform | intros b].
    destruct b; simpl; [constructor | apply AwaitFree_perform]. }
  split; [exact F | split].
  - unfold onDidCloseTextDocument. simpl.
    destruct (analyzeWholePackage (settings w)); reflexivity.
  - intros engine. split; [apply AwaitFree_run, F |].
    unfold onDidCloseTextDocument. simpl.
    destruct (analyzeWholePackage (settings w)); reflexivity.
Qed.

End OpenDocuments.

(** ** Configuration changes *)

Section Configuration.

Context {converter : AnalyzerLSPConverter}.
Context {registry : Registry}.

(** A cycle runs synchronously up to its lint request and touches nothing
    on the way. *)
Lemma runSync_reportWarnings w :
  exists k, runSync reportWarnings w = mkRan (Suspended (cycleRequest w) k) w [] /\
            forall result,
              k (inr result) =
              if analyzeWholePackage (settings w)
              then reportPackageWarnings (warnings result)
              else forEach (JSMap.entries (grouped (warnings result)))
                           (fun e => sendDiagnostics (fst e) (snd e)).
Proof.
  unfold reportWarnings, cycleRequest, perform, await. cbn [bind runSync exec].
  destruct (analyzeWholePackage (settings w)); cbn [bind runSync exec after app];
    eexists; (split; [reflexivity | intros result; reflexivity]).
Qed.

(** C9.  When the configured rule names cannot be looked up, the linter
    is rebuilt with no rules; nothing is sent and nothing is thrown on the
    way; a reporting cycle starts at once, its lint request made to the
    linter without rules, and the listener as a whole does what that
    cycle does. *)
Theorem unknown_rule_falls_back (engine : Engine) (w : World)
        (cfg : LintConfig) (names : list string) (e : Error) :
  lint (projectConfig (settings w)) = Some cfg ->
  lintRules cfg = Some names ->
  getRules names = inl e ->
  let w' := withLinter w (mkLinter []) in
  (exists k, runSync onProjectConfigChange w =
             mkRan (Suspended (cycleRequest w') k) w' []) /\
  rules (linter w') = [] /\
  run engine onProjectConfigChange w = run engine reportWarnings w' /\
  requests engine onProjectConfigChange w = requests engine reportWarnings w'.
Proof.
  intros Hlint Hrules Hget w'.
  unfold onProjectConfigChange, updateLinter, perform.
  cbn [bind runSync run requests exec]. rewrite Hlint, Hrules, Hget.
  fold w'. split; [| split; [reflexivity | split]].
  - destruct (runSync_reportWarnings w') as [k [Hk _]].
    exists k. rewrite Hk. reflexivity.
  - now rewrite !after_nil.
  - reflexivity.
Qed.

End Configuration.

(** ** Switching the analysis mode *)

Section ModeToggle.

Context {converter : AnalyzerLSPConverter}.

Lemma run_forEach_send (engine : Engine) {X} (l : list X) (f : X -> string)
      (g : X -> list Diagnostic) (w : World) :
  run engine (forEach l (fun x => sendDiagnostics (f x) (g x))) w =
  mkRan (Done tt) w (map (fun x => mkPublish (f x) (g x)) l).
Proof.
  rewrite AwaitFree_run by (apply AwaitFree_forEach; intros x; apply AwaitFree_perform).
  apply runSync_forEach_send.
Qed.

(** Switching into whole-package mode: the open documents become the
    reported set, then the cycle starts. *)
Lemma onSettingsChange_into (newer older : SettingsJson) :
  analyzeWholePackageOf newer = true ->
  analyzeWholePackageOf older = false ->
  onSettingsChange newer older =
  ((keys <- perform DocumentsKeys ;; perform (PutUrisReported (JSSet.of_list keys))) ;;
   reportWarnings).
Proof. intros Hn Ho. unfold onSettingsChange. now rewrite Hn, Ho. Qed.

(** Switching out of it: every reported URI is cleared, then the cycle
    starts. *)
Lemma onSettingsChange_out (newer older : SettingsJson) :
  analyzeWholePackageOf newer = false ->
  analyzeWholePackageOf older = true ->
  onSettingsChange newer older =
  ((reported <- perform GetUrisReported ;;
    forEach (JSSet.elements reported) (fun uri => sendDiagnostics uri [])) ;;
   reportWarnings).
Proof. intros Hn Ho. unfold onSettingsChange. now rewrite Hn, Ho. Qed.

Lemma prelude_into w :
  runSync (keys <- perform DocumentsKeys ;; perform (PutUrisReported (JSSet.of_list keys))) w =
  mkRan (Done tt) (withReported w (JSSet.of_list (documents w))) [].
Proof. reflexivity. Qed.

Lemma prelude_out w :
  runSync (reported <- perform GetUrisReported ;;
           forEach (JSSet.elements reported) (fun uri => sendDiagnostics uri [])) w =
  mkRan (Done tt) w (map clearOf (urisReportedWarningsFor w)).
Proof.
  assert (R : runSync (perform GetUrisReported) w =
              mkRan (Done (urisReportedWarningsFor w)) w []) by reflexivity.
  rewrite (runSync_bind_done _ _ _ R).
  rewrite (runSync_forEach_send _ (fun u => u) (fun _ => []) w).
  reflexivity.
Qed.

Lemma AwaitFree_prelude_into :
  AwaitFree (keys <- perform DocumentsKeys ;;
             perform (PutUrisReported (JSSet.of_list keys))).
Proof.
  apply AwaitFree_bind; [apply AwaitFree_perform | intros; apply AwaitFree_perform].
Qed.

Lemma AwaitFree_prelude_out :
  AwaitFree (reported <- perform GetUrisReported ;;
             forEach (JSSet.elements reported) (fun uri => sendDiagnostics uri [])).
Proof.
  apply AwaitFree_bind; [apply AwaitFree_perform | intros reported].
  apply AwaitFree_forEach. intros u. apply AwaitFree_perform.
Qed.

(** C3.  On a toggle of the analysis mode, with the settings already
    showing the new mode.  Into whole-package mode: the reported set
    becomes the set of open document URIs before the lint of the next
    cycle is even requested, nothing is sent, and a whole-package cycle
    runs from there; in that cycle an open document that has warnings is
    not cleared, and one that has none receives exactly one empty publish.
    Out of whole-package mode: an empty publish is sent for every URI of
    the reported set, then an open-documents cycle runs. *)
Theorem mode_toggle (engine : Engine) (newer older : SettingsJson) (w : World) :
  analyzeWholePackageOf newer <> analyzeWholePackageOf older ->
  analyzeWholePackage (settings w) = analyzeWholePackageOf newer ->
  let toggled := onSettingsChange newer older in
  if analyzeWholePackageOf newer then
    let seeded := withReported w (JSSet.of_list (documents w)) in
    (exists k, runSync toggled w = mkRan (Suspended (LintPackage (linter w)) k) seeded []) /\
    run engine toggled w = run engine reportWarnings seeded /\
    (forall result u,
        engine _ (LintPackage (linter w)) = inr result ->
        In u (documents w) ->
        clears u (sent (run engine toggled w)) =
        if JSSet.has (urisOf (warnings result)) u then 0 else 1)
  else
    (exists k, runSync toggled w =
               mkRan (Suspended (Lint (linter w) (map getWorkspacePathToFile (documents w))) k)
                     w (map clearOf (urisReportedWarningsFor w))) /\
    run engine toggled w =
      after (map clearOf (urisReportedWarningsFor w)) (run engine reportWarnings w) /\
    (forall u, In u (urisReportedWarningsFor w) ->
               In (mkPublish u []) (sent (run engine toggled w))).
Proof.
  intros Hdiff Hmode toggled.
  destruct (analyzeWholePackageOf newer) eqn:Hn.
  - assert (Ho : analyzeWholePackageOf older = false)
      by (destruct (analyzeWholePackageOf older); congruence).
    intros seeded. unfold toggled. rewrite (onSettingsChange_into _ _ Hn Ho).
    assert (Erun : run engine
                     ((keys <- perform DocumentsKeys ;;
                       perform (PutUrisReported (JSSet.of_list keys))) ;; reportWarnings) w =
                   run engine reportWarnings seeded).
    { rewrite (run_bind_done engine _ _ _
                 (eq_trans (AwaitFree_run engine AwaitFree_prelude_into w) (prelude_into w))).
      apply after_nil. }
    split; [| split].
    + rewrite (runSync_bind_done _ _ _ (prelude_into w)). fold seeded.
      destruct (runSync_reportWarnings seeded) as [k [Hk _]].
      exists k. rewrite Hk, after_nil. unfold cycleRequest. simpl.
      now rewrite Hmode.
    + exact Erun.
    + intros result u Hlint Hopen. rewrite Erun.
      rewrite (run_reportWarnings_package engine seeded Hmode Hlint).
      rewrite clears_reportPackageWarnings. simpl.
      rewrite JSSetFacts.has_of_list.
      apply JSSetFacts.has_In in Hopen. rewrite Hopen. simpl.
      destruct (JSSet.has (urisOf (warnings result)) u); reflexivity.
  - assert (Ho : analyzeWholePackageOf older = true)
      by (destruct (analyzeWholePackageOf older); congruence).
    unfold toggled. rewrite (onSettingsChange_out _ _ Hn Ho).
    assert (Erun : run engine
                     ((reported <- perform GetUrisReported ;;
                       forEach (JSSet.elements reported)
                               (fun uri => sendDiagnostics uri [])) ;; reportWarnings) w =
                   after (map clearOf (urisReportedWarningsFor w))
                         (run engine reportWarnings w)).
    { now rewrite (run_bind_done engine _ _ _
                     (eq_trans (AwaitFree_run engine AwaitFree_prelude_out w)
                               (prelude_out w))). }
    split; [| split].
    + rewrite (runSync_bind_done _ _ _ (prelude_out w)).
      destruct (runSync_reportWarnings w) as [k [Hk _]].
      exists k. rewrite Hk. unfold cycleRequest, after. simpl.
      now rewrite Hmode, app_nil_r.
    + exact Erun.
    + intros u Hu. rewrite Erun. simpl. apply in_or_app. left.
      apply (in_map clearOf), Hu.
Qed.

End ModeToggle.

(** ** Failures of the lint engine *)

Section Failures.

Context {converter : AnalyzerLSPConverter}.
Context {registry : Registry}.
Context {commands : Commands}.

Lemma run_reportWarnings_failed (engine : Engine) w e :
  engine _ (cycleRequest w) = inl e ->
  run engine reportWarnings w = mkRan (Failed e) w [].
Proof.
  unfold cycleRequest, reportWarnings, perform, await. cbn [bind run exec].
  destruct (analyzeWholePackage (settings w)); cbn [bind run exec];
    intros ->; reflexivity.
Qed.

Lemma run_getCodeActions_failed (engine : Engine) req w e :
  contextDiagnostics req <> [] ->
  engine _ (Lint (linter w) [getWorkspacePathToFile (textDocument req)]) = inl e ->
  run engine (getCodeActions req) w = mkRan (Failed e) w [].
Proof.
  intros Hctx Hlint. unfold getCodeActions, perform, await.
  destruct (contextDiagnostics req); [congruence |].
  cbn [length Nat.eqb bind run exec]. rewrite Hlint. reflexivity.
Qed.

(** What the registered code-action listener ends with when the lint of the
    request fails. *)
Lemma run_onCodeAction_failed (engine : Engine) req w e :
  contextDiagnostics req <> [] ->
  engine _ (Lint (linter w) [getWorkspacePathToFile (textDocument req)]) = inl e ->
  run engine (onCodeAction req) w = mkRan (Failed e) w [].
Proof.
  intros Hctx Hlint. unfold onCodeAction, getCodeActions, perform, await.
  destruct (contextDiagnostics req); [congruence |].
  cbn [length Nat.eqb bind handleErrors run exec]. rewrite Hlint. reflexivity.
Qed.

Lemma run_getFixesForFile_failed (engine : Engine) documentUri w e :
  engine _ (Lint (linter w) [getWorkspacePathToFile documentUri]) = inl e ->
  run engine (getFixesForFile documentUri) w = mkRan (Failed e) w [].
Proof.
  intros Hlint. unfold getFixesForFile, perform, await.
  cbn [bind run exec]. rewrite Hlint. reflexivity.
Qed.

Lemma run_getAllFixes_failed (engine : Engine) w e :
  engine _ (LintPackage (linter w)) = inl e ->
  run engine getAllFixes w = mkRan (Failed e) w [].
Proof.
  intros Hlint. unfold getAllFixes, perform, await.
  cbn [bind run exec]. rewrite Hlint. reflexivity.
Qed.

(** The caller of a call whose promise is dropped sees it complete
    normally, with the state and the publishes the call has made. *)
Lemma run_unawaited {A} (engine : Engine) (p : Async A) (w : World) :
  run engine (unawaited p) w =
  mkRan (Done tt) (world (run engine p w)) (sent (run engine p w)).
Proof.
  revert w. induction p as [a | e | X c k IH | X req k IH]; intros w; simpl;
    try reflexivity.
  - destruct (exec c w) as [[x w'] out]. rewrite IH. reflexivity.
  - apply IH.
Qed.

(** C4, as the code has it.  When the lint engine throws: [reportWarnings]
    ends with that exception, with nothing sent and the world (the reported
    set included) as it was, but the exception reaches no caller: the
    listener of file changes, which calls [reportWarnings] and drops its
    promise, completes normally, and so do the other two listeners that
    start a cycle, whatever the engine answers.  [getAllFixes] and
    [getFixesForFile] end with the exception, and so does [getCodeActions],
    whose promise the code-action listener passes through [handleErrors]. *)
Theorem lint_failure_outcomes (engine : Engine) (w : World) (e : Error)
        (req : CodeActionParams) (documentUri : string) (newer older : SettingsJson) :
  (engine _ (cycleRequest w) = inl e ->
   run engine reportWarnings w = mkRan (Failed e) w [] /\
   run engine fileChangesListener w = mkRan (Done tt) w []) /\
  (outcome (run engine fileChangesListener w) = Done tt /\
   outcome (run engine projectConfigChangeListener w) = Done tt /\
   outcome (run engine (settingsChangeListener newer older) w) = Done tt) /\
  (engine _ (LintPackage (linter w)) = inl e ->
   run engine getAllFixes w = mkRan (Failed e) w []) /\
  (engine _ (Lint (linter w) [getWorkspacePathToFile documentUri]) = inl e ->
   run engine (getFixesForFile documentUri) w = mkRan (Failed e) w []) /\
  (contextDiagnostics req <> [] ->
   engine _ (Lint (linter w) [getWorkspacePathToFile (textDocument req)]) = inl e ->
   run engine (getCodeActions req) w = mkRan (Failed e) w [] /\
   run engine (onCodeAction req) w = mkRan (Failed e) w []).
Proof.
  split.
  { intros H. split; [now apply run_reportWarnings_failed |].
    unfold fileChangesListener.
    now rewrite run_unawaited, (run_reportWarnings_failed engine w H). }
  split.
  { unfold fileChangesListener, projectConfigChangeListener, settingsChangeListener.
    rewrite !run_unawaited. repeat split. }
  split; [intros H; now apply run_getAllFixes_failed |].
  split; [intros H; now apply run_getFixesForFile_failed |].
  intros Hctx Hlint. split.
  - now apply run_getCodeActions_failed.
  - now apply (run_onCodeAction_failed engine req w (e := e)).
Qed.

End Failures.

(** ** Fixes for one file *)

Section SingleFileFixes.

Context {converter : AnalyzerLSPConverter}.

Lemma fold_left_push {X Y} (g : X -> Y) (l : list X) (acc : list Y) :
  fold_left (fun acc x => acc ++ [g x]) l acc = acc ++ map g l.
Proof.
  revert acc. induction l as [| x l IH]; intros acc; simpl.
  - now rewrite app_nil_r.
  - now rewrite IH, <- app_assoc.
Qed.

Lemma toTextEdits_flat (applied : list Edit) :
  toTextEdits applied = flat_map (map replacementTextEdit) applied.
Proof.
  unfold toTextEdits.
  assert (G : forall acc,
             fold_left
               (fun textEdits appliedEdit =>
                  fold_left
                    (fun textEdits replacement =>
                       textEdits ++
                         [TextEditNS.replace (convertPRangeToL (range replacement))
                                             (replacementText replacement)])
                    appliedEdit textEdits)
               applied acc = acc ++ flat_map (map replacementTextEdit) applied).
  { induction applied as [| f applied IH]; intros acc; simpl.
    - now rewrite app_nil_r.
    - rewrite IH.
      change (fold_left _ f acc)
        with (fold_left (fun acc x => acc ++ [replacementTextEdit x]) f acc).
      rewrite fold_left_push. now rewrite <- app_assoc. }
  apply G.
Qed.

Lemma fixWithin_spec (path : string) (f : Edit) :
  fixWithin path f = true <-> forall r, In r f -> file (range r) = path.
Proof.
  unfold fixWithin. rewrite forallb_forall. split; intros H r Hr.
  - apply String.eqb_eq, H, Hr.
  - apply String.eqb_eq, H, Hr.
Qed.

Lemma touchesOther_fixWithin (path : string) (f : Edit) :
  existsb (fun repl => negb (file (range repl) =? path)) f = negb (fixWithin path f).
Proof.
  unfold fixWithin. induction f as [| r f IH]; simpl; [reflexivity |].
  rewrite IH. now destruct (file (range r) =? path).
Qed.

(** The fixes submitted for application: those that stay in the file. *)
Lemma collectFixes_filter (path : string) (ws : list Warning) (acc : list Edit) :
  fold_left (collectFixes path) ws acc = acc ++ filter (fixWithin path) (fixesOf ws).
Proof.
  revert acc. induction ws as [| warning ws IH]; intros acc; simpl.
  - now rewrite app_nil_r.
  - rewrite IH. unfold collectFixes.
    destruct (fix_ warning) as [f |]; simpl; [| reflexivity].
    rewrite touchesOther_fixWithin.
    destruct (fixWithin path f); simpl; [now rewrite <- app_assoc | reflexivity].
Qed.

(** C5.  [getFixesForFile] lints the requested file only and submits for
    application exactly the fixes all of whose replacements are in that
    file: a fix with a replacement in another file is not submitted.
    Applied edits being among the submitted ones, the text edits returned
    are those of whole applied fixes; no replacement in another file and
    no fix touching another file is among them. *)
Theorem single_file_fixes_stay_in_file (engine : Engine) (documentUri : string)
        (w : World) (result : LintResult) (applied : EditResult) :
  let path := getWorkspacePathToFile documentUri in
  let submitted := filter (fixWithin path) (fixesOf (warnings result)) in
  engine _ (Lint (linter w) [path]) = inr result ->
  engine _ (ApplyEdits submitted (analysis result)) = inr applied ->
  incl (appliedEdits applied) submitted ->
  requests engine (getFixesForFile documentUri) w =
    [Requested (Lint (linter w) [path]);
     Requested (ApplyEdits submitted (analysis result))] /\
  (forall f, In f submitted <->
             In f (fixesOf (warnings result)) /\
             forall r, In r f -> file (range r) = path) /\
  (forall f r, In r f -> file (range r) <> path -> ~ In f submitted) /\
  run engine (getFixesForFile documentUri) w =
    mkRan (Done (flat_map (map replacementTextEdit) (appliedEdits applied))) w [] /\
  (forall f r, In f (appliedEdits applied) -> In r f -> file (range r) = path) /\
  (forall f r, In r f -> file (range r) <> path -> ~ In f (appliedEdits applied)).
Proof.
  intros path submitted Hlint Happly Hincl.
  assert (Hsub : forall f, In f submitted <->
                           In f (fixesOf (warnings result)) /\
                           forall r, In r f -> file (range r) = path).
  { intros f. unfold submitted. rewrite filter_In, fixWithin_spec. tauto. }
  assert (Hother : forall f r, In r f -> file (range r) <> path -> ~ In f submitted).
  { intros f r Hr Hfile Hf. apply Hsub in Hf. apply Hfile, Hf, Hr. }
  assert (Esub : fold_left (collectFixes path) (warnings result) [] = submitted)
    by apply collectFixes_filter.
  split; [| split; [exact Hsub | split; [exact Hother | split; [| split]]]].
  - unfold getFixesForFile, perform, await. fold path.
    cbn [bind requests exec]. rewrite Hlint. cbn [bind requests].
    rewrite Esub, Happly. reflexivity.
  - unfold getFixesForFile, perform, await. fold path.
    cbn [bind run exec]. rewrite Hlint. cbn [bind run].
    rewrite Esub, Happly. cbn [bind run after app].
    now rewrite toTextEdits_flat.
  - intros f r Hf Hr. apply Hincl in Hf. apply Hsub in Hf. apply Hf, Hr.
  - intros f r Hr Hfile Hf. apply Hincl in Hf. exact (Hother f r Hr Hfile Hf).
Qed.

End SingleFileFixes.

(** ** Code actions *)

Section CodeActions.

Context {converter : AnalyzerLSPConverter}.
Context {commands : Commands}.

Lemma positionLeb_refl (p : SourcePosition) : positionLeb p p = true.
Proof.
  unfold positionLeb. rewrite Nat.eqb_refl, Nat.leb_refl. apply orb_true_r.
Qed.

Lemma positionLeb_column_before (p q : SourcePosition) :
  line p = line q -> column p < column q -> positionLeb q p = false.
Proof.
  intros Hl Hc. unfold positionLeb. rewrite Hl, Nat.ltb_irrefl, Nat.eqb_refl.
  simpl. apply Nat.leb_gt, Hc.
Qed.

(** A range equal to the outer one is inside it. *)
Lemma isRangeInside_equal (inner outer : SourceRange) :
  positionLeb (start outer) (end_ outer) = true ->
  start inner = start outer -> end_ inner = end_ outer ->
  isRangeInside inner outer = true.
Proof.
  intros Hwf Hs He. unfold isRangeInside, isPositionInsideRange.
  rewrite Hs, He, !positionLeb_refl, Hwf. reflexivity.
Qed.

(** A range starting one character before the outer one is not. *)
Lemma isRangeInside_before (inner outer : SourceRange) :
  line (start inner) = line (start outer) ->
  column (start inner) + 1 = column (start outer) ->
  isRangeInside inner outer = false.
Proof.
  intros Hl Hc. unfold isRangeInside, isPositionInsideRange.
  rewrite (positionLeb_column_before (start inner) (start outer)) by lia.
  reflexivity.
Qed.

(** A range ending one character after the outer one is not. *)
Lemma isRangeInside_after (inner outer : SourceRange) :
  line (end_ inner) = line (end_ outer) ->
  column (end_ inner) = column (end_ outer) + 1 ->
  isRangeInside inner outer = false.
Proof.
  intros Hl Hc. unfold isRangeInside, isPositionInsideRange.
  rewrite (positionLeb_column_before (end_ outer) (end_ inner)) by lia.
  now rewrite !andb_false_r.
Qed.

Lemma fold_actions (l : list Action) (acc : list Command) :
  fold_left
    (fun commands action =>
       if negb (kind action =? "edit") then commands
       else commands ++
              [createApplyEditCommand (firstLine (description action)) (edit action)])
    l acc
  = acc ++ map actionCommand (filter isEdit l).
Proof.
  revert acc. induction l as [| a l IH]; intros acc; simpl.
  - now rewrite app_nil_r.
  - rewrite IH. unfold isEdit at 2.
    destruct (kind a =? "edit"); simpl; [now rewrite <- app_assoc | reflexivity].
Qed.

Lemma filter_nonempty {X} (f : X -> bool) (l : list X) :
  filter f l <> [] <-> existsb f l = true.
Proof.
  induction l as [| x l IH]; simpl.
  - split; [intros H; now elim H | discriminate].
  - destruct (f x); simpl; [split; [reflexivity | discriminate] | exact IH].
Qed.

(** What one warning adds to the commands gathered so far. *)
Lemma codeActionStep_app (requestedRange : SourceRange) (acc : list Command)
      (warning : Warning) :
  codeActionStep requestedRange acc warning =
  acc ++ commandsFor requestedRange warning.
Proof.
  unfold commandsFor, codeActionStep.
  destruct (_ || _); [now rewrite app_nil_r |].
  destruct (fix_ warning) as [f |], (actions warning) as [l |];
    rewrite ?fold_actions; simpl; rewrite ?app_nil_r, <- ?app_assoc; reflexivity.
Qed.

Lemma fold_codeActionStep (requestedRange : SourceRange) (ws : list Warning)
      (acc : list Command) :
  fold_left (codeActionStep requestedRange) ws acc =
  acc ++ flat_map (commandsFor requestedRange) ws.
Proof.
  revert acc. induction ws as [| warning ws IH]; intros acc; simpl.
  - now rewrite app_nil_r.
  - now rewrite IH, codeActionStep_app, <- app_assoc.
Qed.

(** A warning contributes a command exactly when it lies inside the
    requested range and has a fix or an action of kind "edit". *)
Lemma commandsFor_nonempty (requestedRange : SourceRange) (warning : Warning) :
  commandsFor requestedRange warning <> [] <->
  isRangeInside (sourceRange warning) requestedRange = true /\
  (isSome (fix_ warning) = true \/ hasEditAction warning = true).
Proof.
  unfold commandsFor, codeActionStep, hasEditAction.
  destruct (isRangeInside (sourceRange warning) requestedRange);
    destruct (fix_ warning) as [f |], (actions warning) as [[| a l] |];
    cbn [isSome negb andb orb length Nat.eqb app];
    rewrite ?fold_actions; cbn [app];
    try (split; [intros H; now elim H | intros [H _]; discriminate H]);
    try (split; [intros _; split; [reflexivity | left; reflexivity]
                | intros _; destruct (map _ _); discriminate]);
    try (split; [intros H; now elim H | intros [_ [H | H]]; discriminate H]).
  - split; [intros _; split; [reflexivity | left; reflexivity] | discriminate].
  - split.
    + intros H. split; [reflexivity | right].
      apply filter_nonempty. intros E. apply H. now rewrite E.
    + intros [_ [H | H]]; [discriminate H |].
      apply filter_nonempty in H. intros E. apply H.
      apply map_eq_nil in E. exact E.
Qed.

Lemma run_getCodeActions (engine : Engine) req w result :
  contextDiagnostics req <> [] ->
  engine _ (Lint (linter w) [getWorkspacePathToFile (textDocument req)]) = inr result ->
  run engine (getCodeActions req) w =
  mkRan (Done (flat_map (commandsFor (convertLRangeToP (requestRange req)
                                                        (textDocument req)))
                        (warnings result))) w [].
Proof.
  intros Hctx Hlint. unfold getCodeActions, perform, await.
  destruct (contextDiagnostics req); [congruence |].
  cbn [length Nat.eqb bind run exec]. rewrite Hlint. cbn [bind run after app].
  now rewrite fold_codeActionStep.
Qed.

(** C6, as the code has it.  A request that carries no diagnostic in its
    context is answered with no command, without linting.  For any other
    request the answer is the concatenation, in lint order, of what each
    warning of the file contributes, and a warning contributes at least one
    command exactly when its range is inside the requested range, bounds
    included, and it has a fix or an action of kind "edit".  A range equal
    to the requested one is inside it; one that starts a character earlier
    or ends a character later is not. *)
Theorem code_actions_for_contained_warnings (engine : Engine)
        (req : CodeActionParams) (w : World) (result : LintResult) :
  engine _ (Lint (linter w) [getWorkspacePathToFile (textDocument req)]) = inr result ->
  let requestedRange := convertLRangeToP (requestRange req) (textDocument req) in
  run engine (getCodeActions req) w =
    mkRan (Done match contextDiagnostics req with
                | [] => []
                | _ :: _ => flat_map (commandsFor requestedRange) (warnings result)
                end) w [] /\
  requests engine (getCodeActions req) w =
    match contextDiagnostics req with
    | [] => []
    | _ :: _ => [Requested (Lint (linter w) [getWorkspacePathToFile (textDocument req)])]
    end /\
  (forall warning,
      commandsFor requestedRange warning <> [] <->
      isRangeInside (sourceRange warning) requestedRange = true /\
      (isSome (fix_ warning) = true \/ hasEditAction warning = true)) /\
  (forall inner,
      positionLeb (start requestedRange) (end_ requestedRange) = true ->
      start inner = start requestedRange -> end_ inner = end_ requestedRange ->
      isRangeInside inner requestedRange = true) /\
  (forall inner,
      line (start inner) = line (start requestedRange) ->
      column (start inner) + 1 = column (start requestedRange) ->
      isRangeInside inner requestedRange = false) /\
  (forall inner,
      line (end_ inner) = line (end_ requestedRange) ->
      column (end_ inner) = column (end_ requestedRange) + 1 ->
      isRangeInside inner requestedRange = false).
Proof.
  intros Hlint requestedRange.
  split; [| split].
  - destruct (contextDiagnostics req) as [| d ds] eqn:Hctx.
    + unfold getCodeActions. rewrite Hctx. reflexivity.
    + apply run_getCodeActions; [rewrite Hctx; discriminate | exact Hlint].
  - unfold getCodeActions, perform, await.
    destruct (contextDiagnostics req) as [| d ds]; [reflexivity |].
    cbn [length Nat.eqb bind requests exec]. rewrite Hlint. reflexivity.
  - split; [intros warning; apply commandsFor_nonempty |].
    split; [intros inner; apply isRangeInside_equal |].
    split; [intros inner; apply isRangeInside_before
           | intros inner; apply isRangeInside_after].
Qed.

End CodeActions.

(** ** Interleaved cycles *)

Section Atomicity.

Context {converter : AnalyzerLSPConverter}.
Context {registry : Registry}.

Lemma StartsCycle_reportWarnings w :
  StartsCycle reportWarnings w (urisReportedWarningsFor w).
Proof.
  unfold StartsCycle, reportWarnings, perform, await. cbn [bind runSync exec].
  destruct (analyzeWholePackage (settings w)); cbn [bind runSync exec after app];
    simpl; (split; [reflexivity | split; intros; reflexivity]).
Qed.

Lemma StartsCycle_bind {A} (p : Async A) (f : A -> Async unit) w a w' out reported :
  runSync p w = mkRan (Done a) w' out ->
  StartsCycle (f a) w' reported ->
  StartsCycle (bind p f) w reported.
Proof.
  intros Hp [Hset Hout]. unfold StartsCycle.
  rewrite (runSync_bind_done _ _ _ Hp). simpl. split; assumption.
Qed.

Lemma StartsCycle_onDidCloseTextDocument u w :
  StartsCycle (onDidCloseTextDocument u) w (urisReportedWarningsFor w).
Proof.
  unfold StartsCycle, onDidCloseTextDocument. simpl.
  destruct (analyzeWholePackage (settings w)); simpl; split; auto.
Qed.

Lemma StartsCycle_updateLinter w :
  StartsCycle updateLinter w (urisReportedWarningsFor w).
Proof.
  unfold updateLinter.
  eapply StartsCycle_bind; [reflexivity |].
  eapply StartsCycle_bind; [reflexivity |].
  apply (StartsCycle_reportWarnings (withLinter w _)).
Qed.

Lemma StartsCycle_onSettingsChange newer older w :
  StartsCycle (onSettingsChange newer older) w
              (if analyzeWholePackageOf newer && negb (analyzeWholePackageOf older)
               then JSSet.of_list (documents w)
               else urisReportedWarningsFor w).
Proof.
  destruct (analyzeWholePackageOf newer) eqn:Hn,
           (analyzeWholePackageOf older) eqn:Ho; simpl.
  - unfold StartsCycle, onSettingsChange. rewrite Hn, Ho. simpl. auto.
  - rewrite (onSettingsChange_into _ _ Hn Ho).
    eapply StartsCycle_bind; [apply prelude_into |].
    apply (StartsCycle_reportWarnings (withReported w _)).
  - rewrite (onSettingsChange_out _ _ Hn Ho).
    eapply StartsCycle_bind; [apply prelude_out |].
    apply StartsCycle_reportWarnings.
  - unfold StartsCycle, onSettingsChange. rewrite Hn, Ho. simpl. auto.
Qed.

Lemma Forall_dropNth {X} (P : X -> Prop) (i : nat) (l : list X) :
  Forall P l -> Forall P (dropNth i l).
Proof.
  intros H. revert i. induction H as [| x l Hx Hl IH]; intros [| i]; simpl.
  - constructor.
  - constructor.
  - exact Hl.
  - constructor; [exact Hx | apply IH].
Qed.

Lemma park_CycleTask (r : Ran unit) (tasks : list Task) :
  Forall CycleTask tasks ->
  match outcome r with Suspended req k => CycleTask (Parked req k) | _ => True end ->
  Forall CycleTask (park r tasks).
Proof.
  intros Ht Hr. unfold park. destruct (outcome r) as [a | e | X req k]; try exact Ht.
  apply Forall_app. split; [exact Ht | repeat constructor; exact Hr].
Qed.

(** Starting a listener: the parked tasks stay reporting cycles. *)
Lemma spawn_StartsCycle (p : Async unit) (s : Server) (reported : JSSet.t) :
  StartsCycle p (now s) reported ->
  Forall CycleTask (parked s) ->
  Forall CycleTask (parked (spawn p s)) /\
  urisReportedWarningsFor (now (spawn p s)) = reported.
Proof.
  intros [Hset Hout] Ht. unfold spawn, resumeWith. simpl.
  split; [apply park_CycleTask; assumption | exact Hset].
Qed.

(** When the promise of a parked cycle settles, the cycle runs to its end
    in one go; only a whole-package cycle whose lint pass came in touches
    the reported set, and it leaves the URIs of that pass. *)
Lemma settle_CycleTask (t : Task) (engine : Engine) (w : World) :
  CycleTask t ->
  match t with
  | Parked req k =>
      let r := runSync (k (engine _ req)) w in
      (forall Y (req' : Awaitable Y) k', outcome r <> Suspended req' k') /\
      urisReportedWarningsFor (world r) =
      match
        match req in Awaitable X return Settled X -> option JSSet.t with
        | LintPackage _ => fun o =>
            match o with
            | inr result => Some (JSSet.of_list (urisOf (warnings result)))
            | inl _ => None
            end
        | _ => fun _ => None
        end (engine _ req)
      with
      | Some reported => reported
      | None => urisReportedWarningsFor w
      end
  end.
Proof.
  destruct t as [X req k]. destruct req as [l | l paths | edits a]; simpl;
    intros H; [| | contradiction].
  - destruct H as [Hok Hfail]. destruct (engine LintResult (LintPackage l)) as [e | result].
    + rewrite Hfail. simpl. split; [discriminate | reflexivity].
    + rewrite Hok. split.
      * apply AwaitFree_not_suspended, AwaitFree_reportPackageWarnings.
      * apply reported_reportPackageWarnings.
  - destruct H as [Hok Hfail]. destruct (engine LintResult (Lint l paths)) as [e | result].
    + rewrite Hfail. simpl. split; [discriminate | reflexivity].
    + rewrite Hok. rewrite runSync_forEach_send. simpl.
      split; [discriminate | reflexivity].
Qed.

(** One stimulus: the parked tasks stay reporting cycles, and the
    reported set is either untouched or replaced as a whole. *)
Lemma react_reported (s : Server) (e : Stimulus) :
  Forall CycleTask (parked s) ->
  Forall CycleTask (parked (react s e)) /\
  urisReportedWarningsFor (now (react s e)) =
  match replaces s e with
  | Some reported => reported
  | None => urisReportedWarningsFor (now s)
  end.
Proof.
  intros Ht. destruct e as [| u | cfg | newer | keys | i engine]; cbn [react replaces].
  - apply spawn_StartsCycle; [apply StartsCycle_reportWarnings | exact Ht].
  - apply spawn_StartsCycle; [apply StartsCycle_onDidCloseTextDocument | exact Ht].
  - destruct (spawn_StartsCycle
                (onWorld (fun w => withSettings
                                     w (mkSettings (analyzeWholePackage (settings (now s)))
                                                   cfg)) s)
                (StartsCycle_updateLinter _) Ht) as [H1 H2].
    split; [exact H1 | exact H2].
  - pose proof (StartsCycle_onSettingsChange
                  newer (mkSettingsJson (analyzeWholePackage (settings (now s))))
                  (withSettings (now s)
                                (mkSettings (analyzeWholePackageOf newer)
                                            (projectConfig (settings (now s)))))) as H.
    cbn [analyzeWholePackageOf documents withSettings urisReportedWarningsFor] in H.
    destruct (spawn_StartsCycle
                (onWorld (fun w => withSettings
                                     w (mkSettings (analyzeWholePackageOf newer)
                                                   (projectConfig (settings (now s))))) s)
                H Ht) as [H1 H2].
    split; [exact H1 |]. rewrite H2.
    destruct (analyzeWholePackageOf newer && negb (analyzeWholePackage (settings (now s))));
      reflexivity.
  - split; [exact Ht | reflexivity].
  - destruct (nth_error (parked s) i) as [t |] eqn:Hnth; [| split; [exact Ht | reflexivity]].
    assert (Hc : CycleTask t).
    { rewrite Forall_forall in Ht. apply Ht. eapply nth_error_In, Hnth. }
    pose proof (settle_CycleTask t engine (now s) Hc) as H.
    destruct t as [X req k]. cbn zeta in H. destruct H as [Hns Hset].
    unfold resumeWith. simpl. split.
    + apply park_CycleTask; [apply Forall_dropNth, Ht |].
      destruct (outcome (runSync (k (engine X req)) (now s))) as [a | err | Y req' k'] eqn:Eo;
        [exact I | exact I |].
      now elim (Hns Y req' k').
    + exact Hset.
Qed.

Lemma reacts_CycleTask (s0 : Server) (es : list Stimulus) :
  Forall CycleTask (parked s0) -> Forall CycleTask (parked (reacts s0 es)).
Proof.
  unfold reacts. revert s0. induction es as [| e es IH]; intros s0 H; simpl.
  - exact H.
  - apply IH, react_reported, H.
Qed.

(** A reporting cycle parks once, at its lint request, before it has
    touched anything; what is left of it when the lint settles runs to the
    end without parking again. *)
Lemma reportWarnings_parks_once w :
  exists k, runSync reportWarnings w = mkRan (Suspended (cycleRequest w) k) w [] /\
            forall o, AwaitFree (k o).
Proof.
  unfold reportWarnings, cycleRequest, perform, await. cbn [bind runSync exec].
  destruct (analyzeWholePackage (settings w)); cbn [bind runSync exec after app];
    eexists; (split; [reflexivity |]); intros [e | result]; cbn [bind].
  - apply AwaitFree_Throw.
  - apply AwaitFree_reportPackageWarnings.
  - apply AwaitFree_Throw.
  - apply AwaitFree_forEach. intros e. apply AwaitFree_perform.
Qed.

(** C2.  [reportPackageWarnings], which reads the reported set, computes
    the clears and assigns the new set, contains no suspension point; a
    reporting cycle parks only at its lint request, before the read.
    Hence, whatever stimuli arrive and in whatever order the parked cycles
    resume, the reported set seen at any scheduling point is the one seen
    at the previous scheduling point, or the URIs of the complete lint
    pass of the cycle that just resumed, or the open documents on a switch
    into whole-package mode: a set under construction is never seen. *)
Theorem diff_and_swap_is_atomic :
  (forall ws, AwaitFree (reportPackageWarnings ws)) /\
  (forall w, exists k,
      runSync reportWarnings w = mkRan (Suspended (cycleRequest w) k) w [] /\
      forall o, AwaitFree (k o)) /\
  (forall (s0 : Server) (es : list Stimulus) (e : Stimulus),
      parked s0 = [] ->
      let s := reacts s0 es in
      urisReportedWarningsFor (now (react s e)) =
      match replaces s e with
      | Some reported => reported
      | None => urisReportedWarningsFor (now s)
      end).
Proof.
  split; [apply AwaitFree_reportPackageWarnings |].
  split; [apply reportWarnings_parks_once |].
  intros s0 es e H0 s. apply react_reported, reacts_CycleTask.
  rewrite H0. constructor.
Qed.

End Atomicity.

(** ** The life of the reported set *)

Section ReportedSetLifetime.

Context {converter : AnalyzerLSPConverter}.
Context {registry : Registry}.
Context {commands : Commands}.

Lemma accesses_bind {A B} (engine : Engine) (p : Async A) (f : A -> Async B) w :
  accesses engine (bind p f) w =
  accesses engine p w ++
  match outcome (run engine p w) with
  | Done a => accesses engine (f a) (world (run engine p w))
  | _ => []
  end.
Proof.
  revert w. induction p as [a | e | X c k IH | X req k IH]; intros w; simpl.
  - reflexivity.
  - reflexivity.
  - destruct (exec c w) as [[x w'] out]. rewrite IH. simpl.
    now rewrite app_assoc.
  - apply IH.
Qed.

Lemma accesses_forEach_send (engine : Engine) {X} (l : list X) (f : X -> string)
      (g : X -> list Diagnostic) (w : World) :
  accesses engine (forEach l (fun x => sendDiagnostics (f x) (g x))) w = [].
Proof. induction l as [| x l IH]; simpl; [reflexivity | exact IH]. Qed.

(** An open-documents cycle neither reads nor assigns the reported set,
    whether its lint pass comes in or fails. *)
Lemma open_cycle_leaves_reported (engine : Engine) w :
  analyzeWholePackage (settings w) = false ->
  accesses engine reportWarnings w = [] /\ world (run engine reportWarnings w) = w.
Proof.
  intros Hmode. unfold reportWarnings, perform, await.
  cbn [bind accesses run exec accessOf app]. rewrite Hmode.
  cbn [bind accesses run exec accessOf app].
  destruct (engine LintResult _) as [e | result]; cbn [bind accesses run after world].
  - split; reflexivity.
  - rewrite accesses_forEach_send, run_forEach_send. split; reflexivity.
Qed.

(** The close listener and the requests for code actions and fixes do not
    use the reported set. *)
Lemma requests_leave_reported (engine : Engine) (w : World)
      (u : string) (req : CodeActionParams) :
  accesses engine (onDidCloseTextDocument u) w = [] /\
  accesses engine (onCodeAction req) w = [] /\
  accesses engine (getFixesForFile u) w = [] /\
  accesses engine getAllFixes w = [].
Proof.
  split; [| split; [| split]].
  - unfold onDidCloseTextDocument. simpl.
    destruct (analyzeWholePackage (settings w)); reflexivity.
  - unfold onCodeAction, getCodeActions, perform, await.
    destruct (contextDiagnostics req); [reflexivity |].
    cbn [length Nat.eqb bind handleErrors accesses exec accessOf app].
    destruct (engine LintResult _); reflexivity.
  - unfold getFixesForFile, perform, await.
    cbn [bind accesses exec accessOf app].
    destruct (engine LintResult _); cbn [bind accesses]; [reflexivity |].
    destruct (engine EditResult _); reflexivity.
  - unfold getAllFixes, perform, await.
    cbn [bind accesses exec accessOf app].
    destruct (engine LintResult _); cbn [bind accesses]; [reflexivity |].
    destruct (engine EditResult _); reflexivity.
Qed.

Lemma replaces_cases (s : Server) (e : Stimulus) (reported : JSSet.t) :
  replaces s e = Some reported ->
  (exists newer, e = SettingsChange newer /\
                 analyzeWholePackageOf newer = true /\
                 analyzeWholePackage (settings (now s)) = false) \/
  (exists i engine l k result,
      e = Settles i engine /\
      nth_error (parked s) i = Some (Parked (LintPackage l) k) /\
      engine _ (LintPackage l) = inr result).
Proof.
  destruct e as [| u | cfg | newer | keys | i engine]; simpl; try discriminate.
  - destruct (analyzeWholePackageOf newer) eqn:Hn,
             (analyzeWholePackage (settings (now s))) eqn:Hm; simpl; try discriminate.
    intros _. left. exists newer. auto.
  - destruct (nth_error (parked s) i) as [[X req k] |] eqn:Hnth; [| discriminate].
    destruct req as [l | l paths | edits a]; try discriminate.
    destruct (engine LintResult (LintPackage l)) as [err | result] eqn:He;
      [discriminate |].
    intros _. right. exists i, engine, l, k, result. auto.
Qed.

(** C10.  Switching out of whole-package mode reads the reported set
    once, sends a clear for each of its URIs and assigns nothing: the set
    is the same after the listener and the open-documents cycle it runs.
    An open-documents cycle makes no use of the set at all, and neither do
    the close listener, code-action requests and fix requests.  Under any
    interleaving of stimuli, the set only changes on a switch into
    whole-package mode or when the lint pass of a parked whole-package
    cycle comes in. *)
Theorem reported_set_kept_outside_whole_package :
  (forall (engine : Engine) (newer older : SettingsJson) (w : World),
      analyzeWholePackageOf older = true ->
      analyzeWholePackageOf newer = false ->
      analyzeWholePackage (settings w) = false ->
      let r := run engine (onSettingsChange newer older) w in
      urisReportedWarningsFor (world r) = urisReportedWarningsFor w /\
      (forall u, In u (urisReportedWarningsFor w) -> In (mkPublish u []) (sent r)) /\
      accesses engine (onSettingsChange newer older) w = [ReadOfReported]) /\
  (forall (engine : Engine) (w : World),
      analyzeWholePackage (settings w) = false ->
      accesses engine reportWarnings w = [] /\
      world (run engine reportWarnings w) = w) /\
  (forall (engine : Engine) (w : World) (u : string) (req : CodeActionParams),
      accesses engine (onDidCloseTextDocument u) w = [] /\
      accesses engine (onCodeAction req) w = [] /\
      accesses engine (getFixesForFile u) w = [] /\
      accesses engine getAllFixes w = []) /\
  (forall (s0 : Server) (es : list Stimulus) (e : Stimulus),
      parked s0 = [] ->
      let s := reacts s0 es in
      urisReportedWarningsFor (now (react s e)) <> urisReportedWarningsFor (now s) ->
      (exists newer, e = SettingsChange newer /\
                     analyzeWholePackageOf newer = true /\
                     analyzeWholePackage (settings (now s)) = false) \/
      (exists i engine l k result,
          e = Settles i engine /\
          nth_error (parked s) i = Some (Parked (LintPackage l) k) /\
          engine _ (LintPackage l) = inr result)).
Proof.
  split; [| split; [| split]].
  - intros engine newer older w Ho Hn Hmode r.
    destruct (open_cycle_leaves_reported engine w Hmode) as [Hacc Hworld].
    assert (Hpre : run engine
                     (reported <- perform GetUrisReported ;;
                      forEach (JSSet.elements reported)
                              (fun uri => sendDiagnostics uri [])) w =
                   mkRan (Done tt) w (map clearOf (urisReportedWarningsFor w)))
      by (rewrite (AwaitFree_run engine AwaitFree_prelude_out); apply prelude_out).
    unfold r. rewrite (onSettingsChange_out _ _ Hn Ho).
    rewrite (run_bind_done engine _ _ _ Hpre), accesses_bind, Hpre.
    cbn [outcome world sent after]. rewrite Hworld, Hacc, app_nil_r.
    split; [reflexivity | split].
    + intros u Hu. apply in_or_app. left. apply (in_map clearOf), Hu.
    + cbn [bind perform accesses exec accessOf app].
      now rewrite (accesses_forEach_send engine _ (fun u => u) (fun _ => []) w).
  - intros engine w Hmode. now apply open_cycle_leaves_reported.
  - intros engine w u req. apply requests_leave_reported.
  - intros s0 es e H0 s Hchanged.
    assert (Ht : Forall CycleTask (parked s))
      by (apply reacts_CycleTask; rewrite H0; constructor).
    destruct (react_reported s e Ht) as [_ Hset].
    destruct (replaces s e) as [reported |] eqn:Hr; [| contradiction].
    exact (replaces_cases s e Hr).
Qed.

End ReportedSetLifetime.

(** ** The statements at work on the sample workspace *)

Lemma whole_package_cycle_diff_witness :
  analyzeWholePackage (settings Sample.packageWorld) = true /\
  Sample.lintsC (LintPackage (linter Sample.packageWorld)) =
    inr (mkLintResult [Sample.w3] (AnalysisOf 1)) /\
  clears Sample.uriA
         (sent (run Sample.lintsC (@reportWarnings Sample.converter) Sample.packageWorld)) = 1 /\
  clears Sample.uriC
         (sent (run Sample.lintsC (@reportWarnings Sample.converter) Sample.packageWorld)) = 0 /\
  urisReportedWarningsFor
    (world (run Sample.lintsC (@reportWarnings Sample.converter) Sample.packageWorld)) =
  [Sample.uriC].
Proof.
  destruct (@whole_package_cycle_diff Sample.converter Sample.lintsC Sample.packageWorld
              (mkLintResult [Sample.w3] (AnalysisOf 1)) eq_refl eq_refl)
    as (_ & Hone & Hnone & Hset & _).
  split; [reflexivity | split; [reflexivity | split; [| split]]].
  - apply Hone; [simpl; auto | simpl; intros [H | []]; discriminate H].
  - apply Hnone. intros [_ H]. apply H. simpl. auto.
  - exact Hset.
Defined.

Lemma diff_and_swap_is_atomic_witness :
  parked (Sample.idle Sample.packageWorld) = [] /\
  urisReportedWarningsFor
    (now (@react Sample.converter Sample.registry
            (@reacts Sample.converter Sample.registry
                     (Sample.idle Sample.packageWorld) [FileChanges])
            (Settles 0 Sample.lintsC))) = [Sample.uriC].
Proof.
  split; [reflexivity |].
  exact (proj2 (proj2 (@diff_and_swap_is_atomic Sample.converter Sample.registry))
               (Sample.idle Sample.packageWorld) [FileChanges] (Settles 0 Sample.lintsC)
               eq_refl).
Defined.

Lemma mode_toggle_witness :
  analyzeWholePackageOf Sample.toPackage <> analyzeWholePackageOf Sample.toOpen /\
  analyzeWholePackage (settings Sample.switchedWorld) =
    analyzeWholePackageOf Sample.toPackage /\
  clears Sample.uriB
         (sent (run Sample.lintsA
                    (@onSettingsChange Sample.converter Sample.toPackage Sample.toOpen)
                    Sample.switchedWorld)) = 1 /\
  clears Sample.uriA
         (sent (run Sample.lintsA
                    (@onSettingsChange Sample.converter Sample.toPackage Sample.toOpen)
                    Sample.switchedWorld)) = 0.
Proof.
  assert (Hdiff : analyzeWholePackageOf Sample.toPackage <>
                  analyzeWholePackageOf Sample.toOpen) by discriminate.
  pose proof (@mode_toggle Sample.converter Sample.lintsA Sample.toPackage Sample.toOpen
                Sample.switchedWorld Hdiff eq_refl) as H.
  cbn [analyzeWholePackageOf Sample.toPackage] in H.
  destruct H as (_ & _ & H).
  split; [exact Hdiff | split; [reflexivity | split]].
  - exact (H (mkLintResult [Sample.w1] (AnalysisOf 1)) Sample.uriB eq_refl
             (or_intror (or_introl eq_refl))).
  - exact (H (mkLintResult [Sample.w1] (AnalysisOf 1)) Sample.uriA eq_refl
             (or_introl eq_refl)).
Defined.

Lemma lint_failure_outcomes_witness :
  (Sample.brokenEngine (@cycleRequest Sample.converter Sample.packageWorld) =
     inl "parse error" /\
   run Sample.brokenEngine (@reportWarnings Sample.converter) Sample.packageWorld =
     mkRan (Failed "parse error") Sample.packageWorld [] /\
   run Sample.brokenEngine (@fileChangesListener Sample.converter) Sample.packageWorld =
     mkRan (Done tt) Sample.packageWorld []) /\
  (Sample.brokenEngine (LintPackage (linter Sample.packageWorld)) = inl "parse error" /\
   run Sample.brokenEngine (@getAllFixes Sample.converter) Sample.packageWorld =
     mkRan (Failed "parse error") Sample.packageWorld []) /\
  (Sample.brokenEngine (Lint (linter Sample.packageWorld) ["a.js"]) = inl "parse error" /\
   run Sample.brokenEngine (@getFixesForFile Sample.converter Sample.uriA)
       Sample.packageWorld =
     mkRan (Failed "parse error") Sample.packageWorld []) /\
  (contextDiagnostics (Sample.request [Sample.aDiagnostic]) <> [] /\
   run Sample.brokenEngine
       (@getCodeActions Sample.converter Sample.commands
                        (Sample.request [Sample.aDiagnostic]))
       Sample.packageWorld =
     mkRan (Failed "parse error") Sample.packageWorld [] /\
   run Sample.brokenEngine
       (@onCodeAction Sample.converter Sample.commands
                      (Sample.request [Sample.aDiagnostic]))
       Sample.packageWorld =
     mkRan (Failed "parse error") Sample.packageWorld []).
Proof.
  assert (Hctx : contextDiagnostics (Sample.request [Sample.aDiagnostic]) <> [])
    by discriminate.
  destruct (@lint_failure_outcomes Sample.converter Sample.registry Sample.commands
              Sample.brokenEngine Sample.packageWorld "parse error"
              (Sample.request [Sample.aDiagnostic]) Sample.uriA
              Sample.toOpen Sample.toPackage)
    as (H1 & _ & H2 & H3 & H4).
  split; [split; [reflexivity | exact (H1 eq_refl)] |].
  split; [split; [reflexivity | exact (H2 eq_refl)] |].
  split; [split; [reflexivity | exact (H3 eq_refl)] |].
  split; [exact Hctx | exact (H4 Hctx eq_refl)].
Defined.

(** C4, where it fails: the lint of a reporting cycle started by a file
    change throws.  The listener called [reportWarnings] without awaiting
    it: it completes normally, and its caller is not thrown at. *)
Lemma failed_cycle_reaches_no_caller :
  Sample.brokenEngine (@cycleRequest Sample.converter Sample.packageWorld) =
    inl "parse error" /\
  run Sample.brokenEngine (@fileChangesListener Sample.converter) Sample.packageWorld =
    mkRan (Done tt) Sample.packageWorld [] /\
  outcome (run Sample.brokenEngine (@fileChangesListener Sample.converter)
               Sample.packageWorld) <> Failed "parse error".
Proof.
  split; [reflexivity | split; [reflexivity | discriminate]].
Qed.

Lemma single_file_fixes_stay_in_file_witness :
  Sample.lintsA (Lint (linter Sample.openWorld) ["a.js"]) =
    inr (mkLintResult [Sample.w1; Sample.w2; Sample.w4; Sample.w5] (AnalysisOf 1)) /\
  Sample.lintsA (ApplyEdits [Sample.fixA] (AnalysisOf 1)) =
    inr (mkEditResult [Sample.fixA] []) /\
  incl [Sample.fixA] [Sample.fixA] /\
  run Sample.lintsA (@getFixesForFile Sample.converter Sample.uriA) Sample.openWorld =
    mkRan (Done [mkTextEdit (mkLRange (mkLPos 0 4) (mkLPos 0 9)) "const"])
          Sample.openWorld [] /\
  ~ In Sample.fixAB [Sample.fixA].
Proof.
  destruct (@single_file_fixes_stay_in_file Sample.converter Sample.lintsA Sample.uriA
              Sample.openWorld
              (mkLintResult [Sample.w1; Sample.w2; Sample.w4; Sample.w5] (AnalysisOf 1))
              (mkEditResult [Sample.fixA] [])
              eq_refl eq_refl (incl_refl _))
    as (_ & _ & _ & Hrun & _ & Hnot).
  split; [reflexivity | split; [reflexivity | split; [apply incl_refl | split]]].
  - exact Hrun.
  - apply (Hnot Sample.fixAB
                (mkReplacement (Sample.span "b.js" 7 0 7 3) "let")).
    + simpl. auto.
    + discriminate.
Defined.

Lemma code_actions_for_contained_warnings_witness :
  contextDiagnostics (Sample.request [Sample.aDiagnostic]) <> [] /\
  Sample.lintsA (Lint (linter Sample.openWorld) ["a.js"]) =
    inr (mkLintResult [Sample.w1; Sample.w2; Sample.w4; Sample.w5] (AnalysisOf 1)) /\
  map title
      match outcome (run Sample.lintsA
                         (@getCodeActions Sample.converter Sample.commands
                                          (Sample.request [Sample.aDiagnostic]))
                         Sample.openWorld) with
      | Done cs => cs
      | _ => []
      end = ["Quick fix the 'no-var' warning"; "Rename it"].
Proof.
  destruct (@code_actions_for_contained_warnings
              Sample.converter Sample.commands Sample.lintsA
              (Sample.request [Sample.aDiagnostic]) Sample.openWorld
              (mkLintResult [Sample.w1; Sample.w2; Sample.w4; Sample.w5] (AnalysisOf 1))
              eq_refl) as (Hrun & _).
  split; [discriminate | split; [reflexivity |]].
  rewrite Hrun. reflexivity.
Defined.

(** C6, where it fails: the request carries no diagnostic in its context;
    the warning lies inside the requested range and has a fix, and yields no
    command. *)
Lemma code_action_without_context_yields_nothing :
  isRangeInside (sourceRange Sample.w1)
                (@convertLRangeToP Sample.converter (requestRange (Sample.request []))
                                   (textDocument (Sample.request []))) = true /\
  isSome (fix_ Sample.w1) = true /\
  Sample.lintsA (Lint (linter Sample.openWorld) ["a.js"]) =
    inr (mkLintResult [Sample.w1; Sample.w2; Sample.w4; Sample.w5] (AnalysisOf 1)) /\
  run Sample.lintsA
      (@getCodeActions Sample.converter Sample.commands (Sample.request []))
      Sample.openWorld = mkRan (Done []) Sample.openWorld [].
Proof.
  repeat split.
Qed.

Lemma open_documents_cycle_witness :
  analyzeWholePackage (settings Sample.openWorld) = false /\
  Sample.lintsA (Lint (linter Sample.openWorld) ["a.js"]) =
    inr (mkLintResult [Sample.w1; Sample.w2; Sample.w4; Sample.w5] (AnalysisOf 1)) /\
  publishes Sample.uriA
            (sent (run Sample.lintsA (@reportWarnings Sample.converter) Sample.openWorld)) = 1 /\
  clears Sample.uriC
         (sent (run Sample.lintsA (@reportWarnings Sample.converter) Sample.openWorld)) = 0 /\
  world (run Sample.lintsA (@reportWarnings Sample.converter) Sample.openWorld) =
    Sample.openWorld.
Proof.
  destruct (@open_documents_cycle Sample.converter Sample.lintsA Sample.openWorld
              (mkLintResult [Sample.w1; Sample.w2; Sample.w4; Sample.w5] (AnalysisOf 1))
              eq_refl eq_refl)
    as (_ & _ & Hworld & Hone & _ & _ & Hclears).
  split; [reflexivity | split; [reflexivity | split; [| split]]].
  - apply Hone. simpl. auto.
  - apply Hclears.
  - exact Hworld.
Defined.

Lemma unknown_rule_falls_back_witness :
  lint (projectConfig (settings Sample.badWorld)) =
    Some (mkLintConfig (Some ["no-such-rule"])) /\
  lintRules (mkLintConfig (Some ["no-such-rule"])) = Some ["no-such-rule"] /\
  @getRules Sample.registry ["no-such-rule"] = inl "Could not find lint rule" /\
  run Sample.lintsC (@onProjectConfigChange Sample.converter Sample.registry)
      Sample.badWorld =
  run Sample.lintsC (@reportWarnings Sample.converter)
      (withLinter Sample.badWorld (mkLinter [])).
Proof.
  destruct (@unknown_rule_falls_back Sample.converter Sample.registry Sample.lintsC
              Sample.badWorld (mkLintConfig (Some ["no-such-rule"])) ["no-such-rule"]
              "Could not find lint rule" eq_refl eq_refl eq_refl)
    as (_ & _ & Hrun & _).
  split; [reflexivity | split; [reflexivity | split; [reflexivity | exact Hrun]]].
Defined.

Lemma reported_set_kept_outside_whole_package_witness :
  (analyzeWholePackageOf Sample.toPackage = true /\
   analyzeWholePackageOf Sample.toOpen = false /\
   analyzeWholePackage (settings Sample.openWorld) = false /\
   urisReportedWarningsFor
     (world (run Sample.lintsA
                 (@onSettingsChange Sample.converter Sample.toOpen Sample.toPackage)
                 Sample.openWorld)) = [Sample.uriA; Sample.uriC]) /\
  accesses Sample.lintsA (@reportWarnings Sample.converter) Sample.openWorld = [] /\
  (parked (Sample.idle Sample.packageWorld) = [] /\
   urisReportedWarningsFor
     (now (@react Sample.converter Sample.registry
             (@reacts Sample.converter Sample.registry
                      (Sample.idle Sample.packageWorld) [FileChanges])
             (Settles 0 Sample.lintsC))) <>
   urisReportedWarningsFor
     (now (@reacts Sample.converter Sample.registry
                   (Sample.idle Sample.packageWorld) [FileChanges])) /\
   ((exists newer, Settles 0 Sample.lintsC = SettingsChange newer /\
                   analyzeWholePackageOf newer = true /\
                   analyzeWholePackage
                     (settings (now (@reacts Sample.converter Sample.registry
                                             (Sample.idle Sample.packageWorld)
                                             [FileChanges]))) = false) \/
    (exists i engine l k result,
        Settles 0 Sample.lintsC = Settles i engine /\
        nth_error (parked (@reacts Sample.converter Sample.registry
                                   (Sample.idle Sample.packageWorld) [FileChanges])) i =
          Some (Parked (LintPackage l) k) /\
        engine _ (LintPackage l) = inr result))).
Proof.
  destruct (@reported_set_kept_outside_whole_package
              Sample.converter Sample.registry Sample.commands)
    as (Hout & Hopen & _ & Hchange).
  assert (Hneq :
            urisReportedWarningsFor
              (now (@react Sample.converter Sample.registry
                      (@reacts Sample.converter Sample.registry
                               (Sample.idle Sample.packageWorld) [FileChanges])
                      (Settles 0 Sample.lintsC))) <>
            urisReportedWarningsFor
              (now (@reacts Sample.converter Sample.registry
                            (Sample.idle Sample.packageWorld) [FileChanges])))
    by discriminate.
  split; [| split].
  - split; [reflexivity | split; [reflexivity | split; [reflexivity |]]].
    exact (proj1 (Hout Sample.lintsA Sample.toOpen Sample.toPackage Sample.openWorld
                       eq_refl eq_refl eq_refl)).
  - exact (proj1 (Hopen Sample.lintsA Sample.openWorld eq_refl)).
  - split; [reflexivity | split; [exact Hneq |]].
    exact (Hchange (Sample.idle Sample.packageWorld) [FileChanges]
                   (Settles 0 Sample.lintsC) eq_refl Hneq).
Defined.


(** * Further properties of the handler *)

(** ** The publishes of a cycle, in full *)

Section CyclePublishes.

Context {converter : AnalyzerLSPConverter}.

Lemma entries_by_key {V} (f : string -> V) (l : list (string * V)) :
  (forall k v, In (k, v) l -> v = f k) ->
  l = map (fun k => (k, f k)) (map fst l).
Proof.
  induction l as [| [k v] l IH]; intros H; simpl; [reflexivity |].
  rewrite <- IH by (intros k' v' Hin; apply H; now right).
  now rewrite (H k v (or_introl eq_refl)).
Qed.

(** The batches of a pass: one for each URI of the pass, in the order of
    the first warning of each, holding the diagnostics of that URI. *)
Lemma grouped_closed ws :
  map publishOf (grouped ws) =
  map (fun u => mkPublish u (diagnosticsFor ws u)) (JSSet.of_list (urisOf ws)).
Proof.
  rewrite <- keys_grouped. unfold JSMap.keys.
  rewrite (entries_by_key (diagnosticsFor ws) (grouped ws)) at 1
    by (intros k v; apply grouped_batches).
  rewrite !map_map. reflexivity.
Qed.

Lemma diagnosticsFor_absent ws u : ~ In u (urisOf ws) -> diagnosticsFor ws u = [].
Proof.
  intros H. unfold diagnosticsFor.
  replace (filter (fun w => warningUri w =? u) ws) with (@nil Warning); [reflexivity |].
  symmetry. induction ws as [| w ws IH]; simpl; [reflexivity |].
  destruct (String.eqb_spec (warningUri w) u) as [E | N].
  - elim H. left. exact E.
  - apply IH. intros Hin. apply H. now right.
Qed.

Lemma diagnosticsFor_present ws u : In u (urisOf ws) -> diagnosticsFor ws u <> [].
Proof.
  unfold diagnosticsFor, urisOf. induction ws as [| w ws IH]; simpl; [tauto |].
  intros [E | Hin].
  - rewrite E, String.eqb_refl. discriminate.
  - destruct (warningUri w =? u); [discriminate | apply IH, Hin].
Qed.

Lemma publishes_app u (o1 o2 : list PublishDiagnosticsParams) :
  publishes u (o1 ++ o2) = publishes u o1 + publishes u o2.
Proof. unfold publishes. now rewrite filter_app, length_app. Qed.

Lemma publishes_by_key u (f : string -> list Diagnostic) (l : list string) :
  publishes u (map (fun k => mkPublish k (f k)) l) =
  length (filter (fun x => x =? u) l).
Proof.
  unfold publishes. induction l as [| k l IH]; simpl; [reflexivity |].
  destruct (k =? u); simpl; now rewrite IH.
Qed.

Lemma sent_reportPackageWarnings ws w :
  sent (runSync (reportPackageWarnings ws) w) =
  map (fun u => mkPublish u (diagnosticsFor ws u)) (JSSet.of_list (urisOf ws)) ++
  map (fun u => mkPublish u [])
      (filter (fun u => negb (JSSet.has (urisOf ws) u))
              (JSSet.of_list (urisReportedWarningsFor w))).
Proof.
  rewrite runSync_reportPackageWarnings. cbn [sent].
  now rewrite grouped_closed, JSSetFacts.fold_delete.
Qed.

(** X1.  The publishes of a whole-package cycle, all of them and in order:
    first one batch for each URI of the pass, in the order of the first
    warning of each URI, holding the diagnostics of the warnings of that URI
    in lint order; then one empty array for each URI reported last time and
    absent from the pass, in the order the set held them. *)
Theorem whole_package_cycle_publishes (engine : Engine) (w : World) (result : LintResult) :
  analyzeWholePackage (settings w) = true ->
  engine _ (LintPackage (linter w)) = inr result ->
  let ws := warnings result in
  sent (run engine reportWarnings w) =
  map (fun u => mkPublish u (diagnosticsFor ws u)) (JSSet.of_list (urisOf ws)) ++
  map (fun u => mkPublish u [])
      (filter (fun u => negb (JSSet.has (urisOf ws) u))
              (JSSet.of_list (urisReportedWarningsFor w))).
Proof.
  intros Hmode Hlint ws.
  rewrite (run_reportWarnings_package engine w Hmode Hlint).
  apply sent_reportPackageWarnings.
Qed.

(** X2.  In a whole-package cycle every URI that was reported last time or
    has warnings now receives exactly one publish, and no other URI
    receives any. *)
Theorem whole_package_cycle_one_publish_each (engine : Engine) (w : World)
        (result : LintResult) (u : string) :
  analyzeWholePackage (settings w) = true ->
  engine _ (LintPackage (linter w)) = inr result ->
  publishes u (sent (run engine reportWarnings w)) =
  if JSSet.has (urisReportedWarningsFor w) u || JSSet.has (urisOf (warnings result)) u
  then 1 else 0.
Proof.
  intros Hmode Hlint.
  rewrite (run_reportWarnings_package engine w Hmode Hlint).
  rewrite sent_reportPackageWarnings, publishes_app, !publishes_by_key.
  rewrite !count_NoDup
    by (try apply NoDup_filter; apply JSSetFacts.of_list_NoDup).
  rewrite has_filter, !JSSetFacts.has_of_list.
  destruct (JSSet.has (urisReportedWarningsFor w) u),
           (JSSet.has (urisOf (warnings result)) u); reflexivity.
Qed.

End CyclePublishes.

(** ** What cycles add up to *)

Section CycleConsequences.

Context {converter : AnalyzerLSPConverter}.

Lemma filter_none {X} (f : X -> bool) (l : list X) :
  (forall x, In x l -> f x = false) -> filter f l = [].
Proof.
  induction l as [| x l IH]; intros H; simpl; [reflexivity |].
  rewrite (H x (or_introl eq_refl)). apply IH. intros y Hy. apply H. now right.
Qed.

Lemma world_reportPackageWarnings ws w :
  world (runSync (reportPackageWarnings ws) w) =
  withReported w (JSSet.of_list (urisOf ws)).
Proof.
  rewrite runSync_reportPackageWarnings. cbn [world].
  now rewrite keys_grouped, JSSetFacts.of_list_idem.
Qed.

(** X3.  Running a whole-package cycle again on the same lint result sends
    the same batches again and not a single clear, and leaves the reported
    set as the first cycle left it. *)
Theorem whole_package_cycle_repeated (engine : Engine) (w : World) (result : LintResult) :
  analyzeWholePackage (settings w) = true ->
  engine _ (LintPackage (linter w)) = inr result ->
  let ws := warnings result in
  let first := run engine reportWarnings w in
  let second := run engine reportWarnings (world first) in
  sent second =
    map (fun u => mkPublish u (diagnosticsFor ws u)) (JSSet.of_list (urisOf ws)) /\
  (forall u, clears u (sent second) = 0) /\
  world second = world first.
Proof.
  intros Hmode Hlint ws first second.
  assert (Efirst : world first = withReported w (JSSet.of_list (urisOf ws))).
  { unfold first. rewrite (run_reportWarnings_package engine w Hmode Hlint).
    apply world_reportPackageWarnings. }
  assert (Esecond : second = runSync (reportPackageWarnings ws) (world first)).
  { unfold second. apply run_reportWarnings_package; rewrite Efirst; assumption. }
  assert (Esent : sent second =
                  map (fun u => mkPublish u (diagnosticsFor ws u))
                      (JSSet.of_list (urisOf ws))).
  { rewrite Esecond, sent_reportPackageWarnings, Efirst. cbn [urisReportedWarningsFor withReported].
    rewrite filter_none, app_nil_r; [reflexivity |].
    intros u Hu.
    apply (proj1 (JSSetFacts.of_list_In _ u)) in Hu.
    apply (proj1 (JSSetFacts.of_list_In _ u)) in Hu.
    apply (proj2 (JSSetFacts.has_In _ u)) in Hu. now rewrite Hu. }
  split; [exact Esent | split].
  - intros u. rewrite Esecond, clears_reportPackageWarnings.
    replace (urisReportedWarningsFor (world first))
      with (JSSet.of_list (urisOf ws)) by (now rewrite Efirst).
    rewrite (JSSetFacts.has_of_list (urisOf ws) u).
    destruct (JSSet.has (urisOf ws) u); reflexivity.
  - rewrite Esecond, world_reportPackageWarnings, Efirst. reflexivity.
Qed.

Lemma find_app {X} (f : X -> bool) (l1 l2 : list X) :
  find f (l1 ++ l2) = match find f l1 with Some x => Some x | None => find f l2 end.
Proof.
  induction l1 as [| x l1 IH]; simpl; [reflexivity |].
  destruct (f x); [reflexivity | exact IH].
Qed.

(** What is shown after more publishes: the last of the new ones for the
    URI, and what was shown before when there is none. *)
Lemma shown_app (before more : list PublishDiagnosticsParams) (u : string) :
  shown (before ++ more) u =
  match find (fun p => uri p =? u) (rev more) with
  | Some p => diagnostics p
  | None => shown before u
  end.
Proof.
  unfold shown. rewrite rev_app_distr, find_app.
  destruct (find _ (rev more)); reflexivity.
Qed.

Lemma find_rev_by_key (f : string -> list Diagnostic) (l : list string) (u : string) :
  find (fun p => uri p =? u) (rev (map (fun k => mkPublish k (f k)) l)) =
  if JSSet.has l u then Some (mkPublish u (f u)) else None.
Proof.
  unfold JSSet.has. induction l as [| k l IH]; simpl; [reflexivity |].
  rewrite find_app, IH. simpl. rewrite (String.eqb_sym u k).
  destruct (existsb (String.eqb u) l); [now rewrite orb_true_r |].
  rewrite orb_false_r.
  destruct (String.eqb_spec k u) as [-> | N]; reflexivity.
Qed.

(** What is shown after [reportPackageWarnings], when what was shown
    before was shown for reported URIs only. *)
Lemma shown_reportPackageWarnings ws w (before : list PublishDiagnosticsParams) :
  (forall v, shown before v <> [] -> In v (urisReportedWarningsFor w)) ->
  forall u, shown (before ++ sent (runSync (reportPackageWarnings ws) w)) u =
            diagnosticsFor ws u.
Proof.
  intros Hbefore u. rewrite sent_reportPackageWarnings, app_assoc.
  rewrite shown_app, (find_rev_by_key (fun _ => [])), has_filter,
    JSSetFacts.has_of_list.
  destruct (JSSet.has (urisOf ws) u) eqn:ES.
  - rewrite andb_false_r, shown_app, find_rev_by_key, JSSetFacts.has_of_list, ES.
    reflexivity.
  - rewrite (diagnosticsFor_absent _ _ (proj1 (JSSetFacts.has_false _ _) ES)).
    rewrite andb_true_r.
    destruct (JSSet.has (urisReportedWarningsFor w) u) eqn:ER; [reflexivity |].
    rewrite shown_app, find_rev_by_key, JSSetFacts.has_of_list, ES.
    destruct (shown before u) as [| d ds] eqn:Eb; [reflexivity |].
    apply JSSetFacts.has_false in ER. elim ER. apply Hbefore.
    rewrite Eb. discriminate.
Qed.

Lemma diagnosticsFor_nonempty_iff ws u :
  diagnosticsFor ws u <> [] <-> In u (urisOf ws).
Proof.
  split; [| apply diagnosticsFor_present].
  intros Hne. destruct (in_dec string_dec u (urisOf ws)) as [Hin | Hout]; [exact Hin |].
  elim Hne. now apply diagnosticsFor_absent.
Qed.

(** X4.  If before a whole-package cycle the editor shows diagnostics only
    for URIs of the reported set, then after the cycle it shows, for every
    URI, exactly the diagnostics of the warnings the pass found for it, and
    the URIs it shows diagnostics for are exactly the new reported set. *)
Theorem editor_shows_the_pass (engine : Engine) (w : World) (result : LintResult)
        (before : list PublishDiagnosticsParams) :
  analyzeWholePackage (settings w) = true ->
  engine _ (LintPackage (linter w)) = inr result ->
  (forall v, shown before v <> [] -> In v (urisReportedWarningsFor w)) ->
  let cycle := run engine reportWarnings w in
  (forall u, shown (before ++ sent cycle) u = diagnosticsFor (warnings result) u) /\
  (forall u, shown (before ++ sent cycle) u <> [] <->
             In u (urisReportedWarningsFor (world cycle))).
Proof.
  intros Hmode Hlint Hbefore cycle.
  assert (Ecycle : cycle = runSync (reportPackageWarnings (warnings result)) w)
    by (apply run_reportWarnings_package; assumption).
  assert (Hshown : forall u, shown (before ++ sent cycle) u =
                             diagnosticsFor (warnings result) u)
    by (rewrite Ecycle; now apply shown_reportPackageWarnings).
  split; [exact Hshown |].
  intros u. rewrite Hshown, Ecycle, reported_reportPackageWarnings, JSSetFacts.of_list_In.
  apply diagnosticsFor_nonempty_iff.
Qed.

End CycleConsequences.

(** ** Open-documents cycles and mode switches, further *)

Section ModesFurther.

Context {converter : AnalyzerLSPConverter}.

(** X5.  The publishes of an open-documents cycle, all of them and in
    order: one batch for each URI of the pass, in the order of the first
    warning of each, holding its diagnostics in lint order.  So a URI whose
    warnings are gone from the pass receives nothing, and the editor keeps
    showing for it what it showed before the cycle. *)
Theorem open_documents_cycle_publishes (engine : Engine) (w : World) (result : LintResult) :
  analyzeWholePackage (settings w) = false ->
  engine _ (Lint (linter w) (map getWorkspacePathToFile (documents w))) = inr result ->
  let ws := warnings result in
  let cycle := run engine reportWarnings w in
  sent cycle =
    map (fun u => mkPublish u (diagnosticsFor ws u)) (JSSet.of_list (urisOf ws)) /\
  (forall before u,
      shown (before ++ sent cycle) u =
      if JSSet.has (urisOf ws) u then diagnosticsFor ws u else shown before u).
Proof.
  intros Hmode Hlint ws cycle.
  assert (Esent : sent cycle =
                  map (fun u => mkPublish u (diagnosticsFor ws u))
                      (JSSet.of_list (urisOf ws))).
  { unfold cycle. rewrite (run_reportWarnings_open engine w Hmode Hlint).
    apply grouped_closed. }
  split; [exact Esent |].
  intros before u. rewrite Esent, shown_app, find_rev_by_key, JSSetFacts.has_of_list.
  destruct (JSSet.has (urisOf ws) u); reflexivity.
Qed.

(** X6.  A whole-package cycle does not depend on which documents are
    open, and an open-documents cycle depends neither on the reported set
    nor changes it: with other open documents, respectively another
    reported set, the cycle ends the same way and sends the same publishes,
    whatever the lint engine answers. *)
Theorem cycle_ignores_the_other_mode_state (engine : Engine) (w : World) :
  (analyzeWholePackage (settings w) = true ->
   forall keys,
     run engine reportWarnings (withDocuments w keys) =
     let r := run engine reportWarnings w in
     mkRan (outcome r) (withDocuments (world r) keys) (sent r)) /\
  (analyzeWholePackage (settings w) = false ->
   forall reported,
     run engine reportWarnings (withReported w reported) =
     let r := run engine reportWarnings w in
     mkRan (outcome r) (withReported (world r) reported) (sent r)).
Proof.
  split; intros Hmode x; unfold reportWarnings, perform, await;
    cbn [bind run exec settings withDocuments withReported linter documents];
    rewrite Hmode; cbn [bind run exec settings withDocuments withReported linter documents].
  - destruct (engine LintResult (LintPackage (linter w))) as [e | result];
      cbn [bind run after outcome world sent app]; [reflexivity |].
    rewrite !(AwaitFree_run engine (AwaitFree_reportPackageWarnings (warnings result))).
    rewrite !runSync_reportPackageWarnings. reflexivity.
  - destruct (engine LintResult (Lint (linter w) (map getWorkspacePathToFile (documents w))))
      as [e | result]; cbn [bind run after outcome world sent app]; [reflexivity |].
    rewrite !run_forEach_send. reflexivity.
Qed.

(** X7.  After a switch into whole-package mode the set reported before
    the switch plays no part: the cycle that follows sends one empty array
    to each open document without warnings in the pass and to no other URI,
    and leaves the URIs of the pass as the reported set. *)
Theorem switch_into_whole_package_discards_reported
        (engine : Engine) (newer older : SettingsJson) (w : World) (result : LintResult) :
  analyzeWholePackageOf newer = true ->
  analyzeWholePackageOf older = false ->
  analyzeWholePackage (settings w) = true ->
  engine _ (LintPackage (linter w)) = inr result ->
  let r := run engine (onSettingsChange newer older) w in
  (forall u, clears u (sent r) =
             if JSSet.has (documents w) u && negb (JSSet.has (urisOf (warnings result)) u)
             then 1 else 0) /\
  urisReportedWarningsFor (world r) = JSSet.of_list (urisOf (warnings result)).
Proof.
  intros Hn Ho Hmode Hlint r.
  assert (Er : r = runSync (reportPackageWarnings (warnings result))
                           (withReported w (JSSet.of_list (documents w)))).
  { unfold r. rewrite (onSettingsChange_into _ _ Hn Ho).
    rewrite (run_bind_done engine _ _ _
               (eq_trans (AwaitFree_run engine AwaitFree_prelude_into w) (prelude_into w))).
    rewrite after_nil.
    apply (run_reportWarnings_package engine (withReported w _) Hmode Hlint). }
  split.
  - intros u. rewrite Er, clears_reportPackageWarnings.
    cbn [urisReportedWarningsFor withReported]. now rewrite JSSetFacts.has_of_list.
  - rewrite Er. apply reported_reportPackageWarnings.
Qed.

End ModesFurther.

(** ** A cycle overtaken by a change of mode *)

Section Overtaken.

Context {converter : AnalyzerLSPConverter}.
Context {registry : Registry}.

(** Starting a cycle parks one more task, the rest of [reportWarnings] for
    the mode of the moment, and touches nothing else. *)
Lemma spawn_reportWarnings (s : Server) :
  exists k,
    spawn reportWarnings s =
      mkServer (now s) (parked s ++ [Parked (cycleRequest (now s)) k]) (published s) /\
    forall result,
      k (inr result) =
      if analyzeWholePackage (settings (now s))
      then reportPackageWarnings (warnings result)
      else forEach (JSMap.entries (grouped (warnings result)))
                   (fun e => sendDiagnostics (fst e) (snd e)).
Proof.
  destruct (runSync_reportWarnings (now s)) as [k [Hk Hres]].
  exists k. split; [| exact Hres].
  unfold spawn, resumeWith, park. rewrite Hk. cbn [outcome world sent].
  now rewrite app_nil_r.
Qed.

(** X8.  A cycle keeps the mode it started in.  A whole-package cycle is
    waiting for its lint pass when the mode is switched to open documents
    only; when the pass comes in, the cycle still runs as a whole-package
    cycle: it publishes the batches and clears of [reportPackageWarnings]
    and leaves the URIs of the pass as the reported set, although the mode
    is no longer whole-package. *)
Theorem overtaken_cycle_keeps_its_mode (w : World) (newer : SettingsJson)
        (engine : Engine) (result : LintResult) :
  analyzeWholePackage (settings w) = true ->
  analyzeWholePackageOf newer = false ->
  engine _ (LintPackage (linter w)) = inr result ->
  let s := reacts (mkServer w [] []) [FileChanges; SettingsChange newer] in
  let s' := react s (Settles 0 engine) in
  analyzeWholePackage (settings (now s)) = false /\
  analyzeWholePackage (settings (now s')) = false /\
  published s' =
    published s ++ sent (runSync (reportPackageWarnings (warnings result)) (now s)) /\
  urisReportedWarningsFor (now s') = JSSet.of_list (urisOf (warnings result)).
Proof.
  intros Hmode Hn Hlint s s'.
  destruct (spawn_reportWarnings (mkServer w [] [])) as [k [Hspawn Hk]].
  cbn [now parked published app] in Hspawn, Hk. rewrite Hmode in Hk.
  assert (Hreq : cycleRequest w = LintPackage (linter w))
    by (unfold cycleRequest; now rewrite Hmode).
  rewrite Hreq in Hspawn.
  set (w2 := withSettings w (mkSettings (analyzeWholePackageOf newer)
                                        (projectConfig (settings w)))).
  assert (Hout : onSettingsChange newer (mkSettingsJson (analyzeWholePackage (settings w))) =
                 ((reported <- perform GetUrisReported ;;
                   forEach (JSSet.elements reported) (fun uri => sendDiagnostics uri [])) ;;
                  reportWarnings))
    by (apply onSettingsChange_out; [exact Hn | exact Hmode]).
  destruct (runSync_reportWarnings w2) as [k2 [Hk2 _]].
  assert (Es : s = mkServer w2 [Parked (LintPackage (linter w)) k; Parked (cycleRequest w2) k2]
                            (map clearOf (urisReportedWarningsFor w))).
  { unfold s, reacts. cbn [fold_left react].
    change (spawn onFileChanges (mkServer w [] [])) with (spawn reportWarnings (mkServer w [] [])).
    rewrite Hspawn. cbn [now settings]. rewrite Hout.
    unfold spawn, resumeWith, onWorld. cbn [now parked published].
    fold w2. rewrite (runSync_bind_done _ _ _ (prelude_out w2)), Hk2.
    unfold park, after. cbn [outcome world sent app].
    now rewrite app_nil_r. }
  assert (Es' : s' = resumeWith (runSync (reportPackageWarnings (warnings result)) w2)
                                [Parked (cycleRequest w2) k2] s).
  { unfold s'. rewrite Es. cbn [react nth_error parked now dropNth].
    rewrite Hlint, Hk. reflexivity. }
  rewrite Es'. unfold resumeWith. cbn [now published].
  rewrite world_reportPackageWarnings. rewrite Es. cbn [now published].
  split; [exact Hn | split; [exact Hn | split; reflexivity]].
Qed.

End Overtaken.

(** ** Rebuilding the linter *)

Section LinterFurther.

Context {converter : AnalyzerLSPConverter}.
Context {registry : Registry}.

Lemma AwaitFree_requests {A} (engine : Engine) (p : Async A) :
  AwaitFree p -> forall w, requests engine p w = [].
Proof.
  induction 1 as [a | e | X c k _ IH]; intros w; simpl; try reflexivity.
  destruct (exec c w) as [[x w'] out]. apply IH.
Qed.

(** A cycle makes one request, its lint, whatever comes back. *)
Lemma requests_reportWarnings (engine : Engine) w :
  requests engine reportWarnings w = [Requested (cycleRequest w)].
Proof.
  unfold reportWarnings, cycleRequest, perform, await. cbn [bind requests exec].
  destruct (analyzeWholePackage (settings w)); cbn [bind requests exec]; f_equal.
  - destruct (engine LintResult _) as [e | result]; cbn [bind requests]; [reflexivity |].
    apply AwaitFree_requests, AwaitFree_reportPackageWarnings.
  - destruct (engine LintResult _) as [e | result]; cbn [bind requests]; [reflexivity |].
    apply AwaitFree_requests, AwaitFree_forEach. intros e. apply AwaitFree_perform.
Qed.

(** X9.  [updateLinter] never looks at the linter it replaces: started
    with any other linter in place it runs the same way to the same end.
    The cycle it starts makes its one lint request to the linter just
    built: with the rules the registry found when the lookup succeeds, and
    without rules when the project configuration names none. *)
Theorem update_linter_builds_afresh (engine : Engine) (w : World) :
  (forall l0, run engine updateLinter (withLinter w l0) = run engine updateLinter w) /\
  (forall cfg names found,
      lint (projectConfig (settings w)) = Some cfg ->
      lintRules cfg = Some names ->
      getRules names = inr found ->
      requests engine updateLinter w =
      [Requested (cycleRequest (withLinter w (mkLinter found)))]) /\
  ((lint (projectConfig (settings w)) = None \/
    exists cfg, lint (projectConfig (settings w)) = Some cfg /\ lintRules cfg = None) ->
   requests engine updateLinter w =
   [Requested (cycleRequest (withLinter w (mkLinter [])))]).
Proof.
  split; [| split].
  - intros l0. unfold updateLinter, perform. cbn [bind run exec]. reflexivity.
  - intros cfg names found Hlint Hrules Hget.
    unfold updateLinter, perform. cbn [bind requests exec].
    rewrite Hlint, Hrules, Hget. apply requests_reportWarnings.
  - intros H. unfold updateLinter, perform. cbn [bind requests exec].
    destruct H as [H | [cfg [H1 H2]]].
    + rewrite H. apply requests_reportWarnings.
    + rewrite H1, H2. apply requests_reportWarnings.
Qed.

End LinterFurther.

(** ** Fixes, further *)

Section FixesFurther.

Context {converter : AnalyzerLSPConverter}.

Lemma collect_all_fixes (ws : list Warning) (acc : list Edit) :
  fold_left (fun fixes warning =>
               match fix_ warning with
               | Some f => fixes ++ [f]
               | None => fixes
               end) ws acc = acc ++ fixesOf ws.
Proof.
  revert acc. induction ws as [| warning ws IH]; intros acc; simpl.
  - now rewrite app_nil_r.
  - rewrite IH. destruct (fix_ warning); simpl; [now rewrite <- app_assoc | reflexivity].
Qed.

(** X10.  [getAllFixes] lints the package and submits for application the
    fix of every warning that has one, in lint order and whatever files it
    touches; the answer is the workspace edit of the edits that were
    applied; nothing is published and the state is left alone. *)
Theorem all_fixes_are_submitted (engine : Engine) (w : World)
        (result : LintResult) (applied : EditResult) :
  engine _ (LintPackage (linter w)) = inr result ->
  engine _ (ApplyEdits (fixesOf (warnings result)) (analysis result)) = inr applied ->
  requests engine getAllFixes w =
    [Requested (LintPackage (linter w));
     Requested (ApplyEdits (fixesOf (warnings result)) (analysis result))] /\
  run engine getAllFixes w =
    mkRan (Done (editsToWorkspaceEdit (appliedEdits applied))) w [] /\
  (forall warning f,
      In warning (warnings result) -> fix_ warning = Some f ->
      In f (fixesOf (warnings result))).
Proof.
  intros Hlint Happly.
  split; [| split].
  - unfold getAllFixes, perform, await. cbn [bind requests exec].
    rewrite Hlint. cbn [bind requests]. rewrite (collect_all_fixes _ []). cbn [app].
    rewrite Happly. reflexivity.
  - unfold getAllFixes, perform, await. cbn [bind run exec].
    rewrite Hlint. cbn [bind run]. rewrite (collect_all_fixes _ []). cbn [app].
    rewrite Happly. reflexivity.
  - intros warning f Hin Hfix. unfold fixesOf. apply in_flat_map.
    exists warning. split; [exact Hin |]. rewrite Hfix. now left.
Qed.

(** X11.  When the lint succeeds and [applyEdits] throws, both fix
    requests end with that exception; nothing is published and the state is
    left alone. *)
Theorem apply_edits_failure_propagates (engine : Engine) (w : World)
        (documentUri : string) (e : Error) :
  (forall result,
      engine _ (LintPackage (linter w)) = inr result ->
      engine _ (ApplyEdits (fixesOf (warnings result)) (analysis result)) = inl e ->
      run engine getAllFixes w = mkRan (Failed e) w []) /\
  (forall result,
      engine _ (Lint (linter w) [getWorkspacePathToFile documentUri]) = inr result ->
      engine _ (ApplyEdits (filter (fixWithin (getWorkspacePathToFile documentUri))
                                   (fixesOf (warnings result)))
                           (analysis result)) = inl e ->
      run engine (getFixesForFile documentUri) w = mkRan (Failed e) w []).
Proof.
  split; intros result Hlint Happly.
  - unfold getAllFixes, perform, await. cbn [bind run exec].
    rewrite Hlint. cbn [bind run]. rewrite (collect_all_fixes _ []). cbn [app].
    rewrite Happly. reflexivity.
  - unfold getFixesForFile, perform, await. cbn [bind run exec].
    rewrite Hlint. cbn [bind run]. rewrite (collectFixes_filter _ _ []). cbn [app].
    rewrite Happly. reflexivity.
Qed.

End FixesFurther.

(** ** Code actions, further *)

Section CodeActionsFurther.

Context {converter : AnalyzerLSPConverter}.
Context {commands : Commands}.

(** What a warning contributes, without the guard: inside the requested
    range, the command of its fix if it has one, then one command for each
    of its actions of kind "edit", in their order; outside, nothing. *)
Lemma commandsFor_closed (requestedRange : SourceRange) (warning : Warning) :
  commandsFor requestedRange warning =
  if isRangeInside (sourceRange warning) requestedRange
  then match fix_ warning with
       | Some f => [fixCommand warning f]
       | None => []
       end ++ map actionCommand (editActions warning)
  else [].
Proof.
  unfold commandsFor, codeActionStep, editActions, fixCommand.
  destruct (isRangeInside (sourceRange warning) requestedRange);
    destruct (fix_ warning) as [f |], (actions warning) as [[| a l] |];
    cbn [isSome negb andb orb length Nat.eqb app filter map];
    rewrite ?fold_actions; reflexivity.
Qed.

(** X12.  The answer to a code-action request with a non-empty context, in
    full: for each warning of the lint, in lint order, and only if its
    range is inside the requested range, the quick-fix command of its fix
    if it has one, followed by one command for each of its actions of kind
    "edit", in the order of the actions.  Nothing is published and the
    state is left alone. *)
Theorem code_actions_in_order (engine : Engine) (req : CodeActionParams) (w : World)
        (result : LintResult) :
  contextDiagnostics req <> [] ->
  engine _ (Lint (linter w) [getWorkspacePathToFile (textDocument req)]) = inr result ->
  let requestedRange := convertLRangeToP (requestRange req) (textDocument req) in
  run engine (getCodeActions req) w =
  mkRan (Done (flat_map
                 (fun warning =>
                    if isRangeInside (sourceRange warning) requestedRange
                    then match fix_ warning with
                         | Some f =>
                             [createApplyEditCommand
                                ("Quick fix the '" ++ code warning ++ "' warning") f]
                         | None => []
                         end ++
                         map (fun action =>
                                createApplyEditCommand (firstLine (description action))
                                                       (edit action))
                             (editActions warning)
                    else [])
                 (warnings result))) w [].
Proof.
  intros Hctx Hlint requestedRange.
  rewrite (run_getCodeActions engine req w Hctx Hlint). fold requestedRange.
  f_equal. f_equal. apply flat_map_ext. intros warning. apply commandsFor_closed.
Qed.

Lemma firstLine_no_feed (s : string) : hasLineFeed (firstLine s) = false.
Proof.
  induction s as [| c s IH]; simpl; [reflexivity |].
  destruct (Ascii.eqb c "010"%char) eqn:E; simpl; [reflexivity |].
  now rewrite E, IH.
Qed.

(** X13.  The title taken from the description of an action: it holds no
    line feed; the description is the title alone or the title, a line
    feed, and more; and a description without a line feed is its own
    title. *)
Theorem first_line_of_description (s : string) :
  hasLineFeed (firstLine s) = false /\
  (s = firstLine s \/
   exists rest, s = (firstLine s ++ String "010"%char rest)%string) /\
  (hasLineFeed s = false -> firstLine s = s).
Proof.
  split; [apply firstLine_no_feed | split].
  - induction s as [| c s IH]; simpl; [now left |].
    destruct (Ascii.eqb_spec c "010"%char) as [-> | N].
    + right. exists s. reflexivity.
    + destruct IH as [IH | [rest IH]].
      * left. now rewrite <- IH.
      * right. exists rest. simpl. now rewrite <- IH.
  - induction s as [| c s IH]; simpl; [reflexivity |].
    destruct (Ascii.eqb c "010"%char); simpl; [discriminate |].
    intros H. now rewrite IH.
Qed.

(** X14.  Whatever the lint engine answers, every command of an answer to
    a code-action request is an apply-edit command: it carries the name
    [applyEditCommandName] and exactly one argument, the workspace edit of
    an edit of a warning of the lint (its fix or the edit of one of its
    actions). *)
Theorem code_actions_are_apply_edit_commands (engine : Engine) (req : CodeActionParams)
        (w : World) (answer : list Command) (c : Command) :
  outcome (run engine (getCodeActions req) w) = Done answer ->
  In c answer ->
  command c = applyEditCommandName /\
  exists (result : LintResult) (warning : Warning) (e : Edit),
    engine _ (Lint (linter w) [getWorkspacePathToFile (textDocument req)]) = inr result /\
    In warning (warnings result) /\
    (fix_ warning = Some e \/ exists action, In action (editActions warning) /\ edit action = e) /\
    arguments c = [editToWorkspaceEdit e].
Proof.
  intros Hrun Hc.
  destruct (contextDiagnostics req) as [| d ds] eqn:Hctx.
  - unfold getCodeActions in Hrun. rewrite Hctx in Hrun. simpl in Hrun.
    inversion Hrun; subst. contradiction.
  - assert (Hne : contextDiagnostics req <> []) by (rewrite Hctx; discriminate).
    destruct (engine LintResult
                     (Lint (linter w) [getWorkspacePathToFile (textDocument req)]))
      as [err | result] eqn:Hlint.
    + rewrite (run_getCodeActions_failed engine req w Hne Hlint) in Hrun. discriminate.
    + rewrite (run_getCodeActions engine req w Hne Hlint) in Hrun.
      simpl in Hrun. inversion Hrun; subst. clear Hrun.
      apply in_flat_map in Hc. destruct Hc as [warning [Hw Hc]].
      rewrite commandsFor_closed in Hc.
      destruct (isRangeInside _ _); [| contradiction].
      apply in_app_or in Hc. destruct Hc as [Hc | Hc].
      * destruct (fix_ warning) as [f |] eqn:Hfix; [| contradiction].
        destruct Hc as [<- | []]. split; [reflexivity |].
        exists result, warning, f. repeat split; auto.
      * apply in_map_iff in Hc. destruct Hc as [action [<- Ha]].
        split; [reflexivity |].
        exists result, warning, (edit action). repeat split; eauto.
Qed.

(** X15.  Requests for code actions and for fixes publish nothing and
    leave the state alone, whatever the lint engine and [applyEdits]
    answer. *)
Theorem requests_change_nothing (engine : Engine) (w : World)
        (req : CodeActionParams) (documentUri : string) :
  (world (run engine (getCodeActions req) w) = w /\
   sent (run engine (getCodeActions req) w) = []) /\
  (world (run engine (getFixesForFile documentUri) w) = w /\
   sent (run engine (getFixesForFile documentUri) w) = []) /\
  (world (run engine getAllFixes w) = w /\
   sent (run engine getAllFixes w) = []).
Proof.
  split; [| split].
  - unfold getCodeActions, perform, await.
    destruct (contextDiagnostics req); [split; reflexivity |].
    cbn [length Nat.eqb bind run exec].
    destruct (engine LintResult _); split; reflexivity.
  - unfold getFixesForFile, perform, await. cbn [bind run exec].
    destruct (engine LintResult _); cbn [bind run]; [split; reflexivity |].
    destruct (engine EditResult _); split; reflexivity.
  - unfold getAllFixes, perform, await. cbn [bind run exec].
    destruct (engine LintResult _); cbn [bind run]; [split; reflexivity |].
    destruct (engine EditResult _); split; reflexivity.
Qed.

End CodeActionsFurther.

(** ** What the editor shows after a switch of mode *)

Section SwitchShows.

Context {converter : AnalyzerLSPConverter}.

(** X16.  Switching out of whole-package mode brings the editor in line
    with the open documents: if the editor showed diagnostics only for URIs
    of the reported set, then after the listener and the open-documents
    cycle it starts the editor shows, for every URI, exactly the diagnostics
    of the warnings that cycle found for it. *)
Theorem switch_out_shows_the_open_pass
        (engine : Engine) (newer older : SettingsJson) (w : World) (result : LintResult)
        (before : list PublishDiagnosticsParams) :
  analyzeWholePackageOf newer = false ->
  analyzeWholePackageOf older = true ->
  analyzeWholePackage (settings w) = false ->
  engine _ (Lint (linter w) (map getWorkspacePathToFile (documents w))) = inr result ->
  (forall v, shown before v <> [] -> In v (urisReportedWarningsFor w)) ->
  forall u,
    shown (before ++ sent (run engine (onSettingsChange newer older) w)) u =
    diagnosticsFor (warnings result) u.
Proof.
  intros Hn Ho Hmode Hlint Hbefore u.
  rewrite (onSettingsChange_out _ _ Hn Ho).
  rewrite (run_bind_done engine _ _ _
             (eq_trans (AwaitFree_run engine AwaitFree_prelude_out w) (prelude_out w))).
  rewrite (run_reportWarnings_open engine w Hmode Hlint). cbn [after sent].
  rewrite grouped_closed, app_assoc, shown_app, find_rev_by_key, JSSetFacts.has_of_list.
  destruct (JSSet.has (urisOf (warnings result)) u) eqn:ES; [reflexivity |].
  rewrite (diagnosticsFor_absent _ _ (proj1 (JSSetFacts.has_false _ _) ES)).
  rewrite shown_app. unfold clearOf. rewrite (find_rev_by_key (fun _ => [])).
  destruct (JSSet.has (urisReportedWarningsFor w) u) eqn:ER; [reflexivity |].
  destruct (shown before u) as [| d ds] eqn:Eb; [reflexivity |].
  apply JSSetFacts.has_false in ER. elim ER. apply Hbefore.
  rewrite Eb. discriminate.
Qed.

(** X17.  Switching into whole-package mode brings the editor in line with
    the package: if the editor showed diagnostics only for open documents,
    then after the listener and the whole-package cycle it starts the
    editor shows, for every URI, exactly the diagnostics of the warnings that
    cycle found for it, and these URIs are the reported set. *)
Theorem switch_in_shows_the_package_pass
        (engine : Engine) (newer older : SettingsJson) (w : World) (result : LintResult)
        (before : list PublishDiagnosticsParams) :
  analyzeWholePackageOf newer = true ->
  analyzeWholePackageOf older = false ->
  analyzeWholePackage (settings w) = true ->
  engine _ (LintPackage (linter w)) = inr result ->
  (forall v, shown before v <> [] -> In v (documents w)) ->
  let r := run engine (onSettingsChange newer older) w in
  (forall u, shown (before ++ sent r) u = diagnosticsFor (warnings result) u) /\
  (forall u, shown (before ++ sent r) u <> [] <-> In u (urisReportedWarningsFor (world r))).
Proof.
  intros Hn Ho Hmode Hlint Hbefore r.
  assert (Er : r = runSync (reportPackageWarnings (warnings result))
                           (withReported w (JSSet.of_list (documents w)))).
  { unfold r. rewrite (onSettingsChange_into _ _ Hn Ho).
    rewrite (run_bind_done engine _ _ _
               (eq_trans (AwaitFree_run engine AwaitFree_prelude_into w) (prelude_into w))).
    rewrite after_nil.
    apply (run_reportWarnings_package engine (withReported w _) Hmode Hlint). }
  assert (Hshown : forall u, shown (before ++ sent r) u = diagnosticsFor (warnings result) u).
  { rewrite Er. apply shown_reportPackageWarnings.
    intros v Hv. cbn [urisReportedWarningsFor withReported].
    apply JSSetFacts.of_list_In, Hbefore, Hv. }
  split; [exact Hshown |].
  intros u. rewrite Hshown, Er, reported_reportPackageWarnings, JSSetFacts.of_list_In.
  apply diagnosticsFor_nonempty_iff.
Qed.

End SwitchShows.

(** ** The further properties at work on the sample workspace *)

Lemma shown_single (k : string) (ds : list Diagnostic) (v : string) :
  shown [mkPublish k ds] v <> [] -> v = k.
Proof.
  unfold shown. cbn [rev app find uri].
  destruct (String.eqb_spec k v) as [E | N]; [now intros _ | intros H; now elim H].
Qed.

Lemma whole_package_cycle_publishes_witness :
  analyzeWholePackage (settings Sample.packageWorld) = true /\
  Sample.lintsC (LintPackage (linter Sample.packageWorld)) =
    inr (mkLintResult [Sample.w3] (AnalysisOf 1)) /\
  sent (run Sample.lintsC (@reportWarnings Sample.converter) Sample.packageWorld) =
  [mkPublish Sample.uriC [SampleMore.diagnosticOf Sample.w3];
   mkPublish Sample.uriA []; mkPublish Sample.uriB []].
Proof.
  split; [reflexivity | split; [reflexivity |]].
  exact (@whole_package_cycle_publishes Sample.converter Sample.lintsC Sample.packageWorld
           (mkLintResult [Sample.w3] (AnalysisOf 1)) eq_refl eq_refl).
Defined.

Lemma whole_package_cycle_one_publish_each_witness :
  analyzeWholePackage (settings Sample.packageWorld) = true /\
  Sample.lintsC (LintPackage (linter Sample.packageWorld)) =
    inr (mkLintResult [Sample.w3] (AnalysisOf 1)) /\
  publishes Sample.uriB
            (sent (run Sample.lintsC (@reportWarnings Sample.converter)
                       Sample.packageWorld)) = 1.
Proof.
  split; [reflexivity | split; [reflexivity |]].
  exact (@whole_package_cycle_one_publish_each Sample.converter Sample.lintsC
           Sample.packageWorld (mkLintResult [Sample.w3] (AnalysisOf 1)) Sample.uriB
           eq_refl eq_refl).
Defined.

Lemma whole_package_cycle_repeated_witness :
  analyzeWholePackage (settings Sample.packageWorld) = true /\
  Sample.lintsC (LintPackage (linter Sample.packageWorld)) =
    inr (mkLintResult [Sample.w3] (AnalysisOf 1)) /\
  sent (run Sample.lintsC (@reportWarnings Sample.converter)
            (world (run Sample.lintsC (@reportWarnings Sample.converter)
                        Sample.packageWorld))) =
  [mkPublish Sample.uriC [SampleMore.diagnosticOf Sample.w3]].
Proof.
  split; [reflexivity | split; [reflexivity |]].
  exact (proj1 (@whole_package_cycle_repeated Sample.converter Sample.lintsC
                  Sample.packageWorld (mkLintResult [Sample.w3] (AnalysisOf 1))
                  eq_refl eq_refl)).
Defined.

Lemma editor_shows_the_pass_witness :
  analyzeWholePackage (settings Sample.packageWorld) = true /\
  Sample.lintsC (LintPackage (linter Sample.packageWorld)) =
    inr (mkLintResult [Sample.w3] (AnalysisOf 1)) /\
  (forall v, shown (SampleMore.showing Sample.uriA) v <> [] ->
             In v (urisReportedWarningsFor Sample.packageWorld)) /\
  shown (SampleMore.showing Sample.uriA ++
         sent (run Sample.lintsC (@reportWarnings Sample.converter) Sample.packageWorld))
        Sample.uriA = [] /\
  shown (SampleMore.showing Sample.uriA ++
         sent (run Sample.lintsC (@reportWarnings Sample.converter) Sample.packageWorld))
        Sample.uriC = [SampleMore.diagnosticOf Sample.w3].
Proof.
  assert (Hbefore : forall v, shown (SampleMore.showing Sample.uriA) v <> [] ->
                              In v (urisReportedWarningsFor Sample.packageWorld))
    by (intros v Hv; left; symmetry; exact (shown_single _ _ _ Hv)).
  destruct (@editor_shows_the_pass Sample.converter Sample.lintsC Sample.packageWorld
              (mkLintResult [Sample.w3] (AnalysisOf 1))
              (SampleMore.showing Sample.uriA) eq_refl eq_refl Hbefore) as [Hshown _].
  split; [reflexivity | split; [reflexivity | split; [exact Hbefore | split]]].
  - exact (Hshown Sample.uriA).
  - exact (Hshown Sample.uriC).
Defined.

Lemma open_documents_cycle_publishes_witness :
  analyzeWholePackage (settings Sample.openWorld) = false /\
  Sample.lintsA (Lint (linter Sample.openWorld) ["a.js"]) =
    inr (mkLintResult [Sample.w1; Sample.w2; Sample.w4; Sample.w5] (AnalysisOf 1)) /\
  shown (SampleMore.showing Sample.uriC ++
         sent (run Sample.lintsA (@reportWarnings Sample.converter) Sample.openWorld))
        Sample.uriC = [Sample.aDiagnostic].
Proof.
  split; [reflexivity | split; [reflexivity |]].
  exact (proj2 (@open_documents_cycle_publishes Sample.converter Sample.lintsA
                  Sample.openWorld
                  (mkLintResult [Sample.w1; Sample.w2; Sample.w4; Sample.w5] (AnalysisOf 1))
                  eq_refl eq_refl)
               (SampleMore.showing Sample.uriC) Sample.uriC).
Defined.

Lemma cycle_ignores_the_other_mode_state_witness :
  (analyzeWholePackage (settings Sample.packageWorld) = true /\
   sent (run Sample.lintsC (@reportWarnings Sample.converter)
             (withDocuments Sample.packageWorld [Sample.uriC])) =
   sent (run Sample.lintsC (@reportWarnings Sample.converter) Sample.packageWorld)) /\
  (analyzeWholePackage (settings Sample.openWorld) = false /\
   sent (run Sample.lintsA (@reportWarnings Sample.converter)
             (withReported Sample.openWorld [])) =
   sent (run Sample.lintsA (@reportWarnings Sample.converter) Sample.openWorld)).
Proof.
  split.
  - split; [reflexivity |].
    exact (f_equal (@sent unit)
                   (proj1 (@cycle_ignores_the_other_mode_state Sample.converter
                             Sample.lintsC Sample.packageWorld) eq_refl [Sample.uriC])).
  - split; [reflexivity |].
    exact (f_equal (@sent unit)
                   (proj2 (@cycle_ignores_the_other_mode_state Sample.converter
                             Sample.lintsA Sample.openWorld) eq_refl [])).
Defined.

Lemma switch_into_whole_package_discards_reported_witness :
  analyzeWholePackageOf Sample.toPackage = true /\
  analyzeWholePackageOf Sample.toOpen = false /\
  analyzeWholePackage (settings Sample.switchedWorld) = true /\
  Sample.lintsA (LintPackage (linter Sample.switchedWorld)) =
    inr (mkLintResult [Sample.w1] (AnalysisOf 1)) /\
  clears Sample.uriC
         (sent (run Sample.lintsA
                    (@onSettingsChange Sample.converter Sample.toPackage Sample.toOpen)
                    Sample.switchedWorld)) = 0.
Proof.
  split; [reflexivity | split; [reflexivity | split; [reflexivity | split; [reflexivity |]]]].
  exact (proj1 (@switch_into_whole_package_discards_reported Sample.converter Sample.lintsA
                  Sample.toPackage Sample.toOpen Sample.switchedWorld
                  (mkLintResult [Sample.w1] (AnalysisOf 1))
                  eq_refl eq_refl eq_refl eq_refl) Sample.uriC).
Defined.

Lemma overtaken_cycle_keeps_its_mode_witness :
  analyzeWholePackage (settings Sample.packageWorld) = true /\
  analyzeWholePackageOf Sample.toOpen = false /\
  Sample.lintsC (LintPackage (linter Sample.packageWorld)) =
    inr (mkLintResult [Sample.w3] (AnalysisOf 1)) /\
  analyzeWholePackage
    (settings (now (@react Sample.converter Sample.registry
                      (@reacts Sample.converter Sample.registry
                               (mkServer Sample.packageWorld [] [])
                               [FileChanges; SettingsChange Sample.toOpen])
                      (Settles 0 Sample.lintsC)))) = false /\
  urisReportedWarningsFor
    (now (@react Sample.converter Sample.registry
            (@reacts Sample.converter Sample.registry
                     (mkServer Sample.packageWorld [] [])
                     [FileChanges; SettingsChange Sample.toOpen])
            (Settles 0 Sample.lintsC))) = [Sample.uriC].
Proof.
  destruct (@overtaken_cycle_keeps_its_mode Sample.converter Sample.registry
              Sample.packageWorld Sample.toOpen Sample.lintsC
              (mkLintResult [Sample.w3] (AnalysisOf 1)) eq_refl eq_refl eq_refl)
    as (_ & Hmode & _ & Hset).
  split; [reflexivity | split; [reflexivity | split; [reflexivity | split]]].
  - exact Hmode.
  - exact Hset.
Defined.

Lemma update_linter_builds_afresh_witness :
  lint (projectConfig (settings SampleMore.goodWorld)) =
    Some (mkLintConfig (Some ["undefined-elements"])) /\
  lintRules (mkLintConfig (Some ["undefined-elements"])) = Some ["undefined-elements"] /\
  @getRules Sample.registry ["undefined-elements"] = inr [mkRule "undefined-elements"] /\
  requests Sample.lintsC (@updateLinter Sample.converter Sample.registry)
           SampleMore.goodWorld =
    [Requested (LintPackage (mkLinter [mkRule "undefined-elements"]))] /\
  (lint (projectConfig (settings Sample.packageWorld)) = None /\
   requests Sample.lintsC (@updateLinter Sample.converter Sample.registry)
            Sample.packageWorld = [Requested (LintPackage (mkLinter []))]).
Proof.
  split; [reflexivity | split; [reflexivity | split; [reflexivity | split]]].
  - exact (proj1 (proj2 (@update_linter_builds_afresh Sample.converter Sample.registry
                           Sample.lintsC SampleMore.goodWorld))
                 (mkLintConfig (Some ["undefined-elements"])) ["undefined-elements"]
                 [mkRule "undefined-elements"] eq_refl eq_refl eq_refl).
  - split; [reflexivity |].
    exact (proj2 (proj2 (@update_linter_builds_afresh Sample.converter Sample.registry
                           Sample.lintsC Sample.packageWorld))
                 (or_introl eq_refl)).
Defined.

Lemma all_fixes_are_submitted_witness :
  Sample.lintsA (LintPackage (linter Sample.packageWorld)) =
    inr (mkLintResult [Sample.w1] (AnalysisOf 1)) /\
  Sample.lintsA (ApplyEdits [Sample.fixA] (AnalysisOf 1)) =
    inr (mkEditResult [Sample.fixA] []) /\
  requests Sample.lintsA (@getAllFixes Sample.converter) Sample.packageWorld =
    [Requested (LintPackage (linter Sample.packageWorld));
     Requested (ApplyEdits [Sample.fixA] (AnalysisOf 1))].
Proof.
  split; [reflexivity | split; [reflexivity |]].
  exact (proj1 (@all_fixes_are_submitted Sample.converter Sample.lintsA Sample.packageWorld
                  (mkLintResult [Sample.w1] (AnalysisOf 1))
                  (mkEditResult [Sample.fixA] []) eq_refl eq_refl)).
Defined.

Lemma apply_edits_failure_propagates_witness :
  (SampleMore.applyFails (LintPackage (linter Sample.packageWorld)) =
     inr (mkLintResult [Sample.w1] (AnalysisOf 1)) /\
   SampleMore.applyFails (ApplyEdits [Sample.fixA] (AnalysisOf 1)) = inl "cannot load file" /\
   run SampleMore.applyFails (@getAllFixes Sample.converter) Sample.packageWorld =
     mkRan (Failed "cannot load file") Sample.packageWorld []) /\
  (SampleMore.applyFails (Lint (linter Sample.packageWorld) ["a.js"]) =
     inr (mkLintResult [Sample.w1; Sample.w2] (AnalysisOf 1)) /\
   SampleMore.applyFails (ApplyEdits [Sample.fixA] (AnalysisOf 1)) = inl "cannot load file" /\
   run SampleMore.applyFails (@getFixesForFile Sample.converter Sample.uriA)
       Sample.packageWorld =
     mkRan (Failed "cannot load file") Sample.packageWorld []).
Proof.
  destruct (@apply_edits_failure_propagates Sample.converter SampleMore.applyFails
              Sample.packageWorld Sample.uriA "cannot load file") as [Hall Hone].
  split.
  - split; [reflexivity | split; [reflexivity |]].
    exact (Hall (mkLintResult [Sample.w1] (AnalysisOf 1)) eq_refl eq_refl).
  - split; [reflexivity | split; [reflexivity |]].
    exact (Hone (mkLintResult [Sample.w1; Sample.w2] (AnalysisOf 1)) eq_refl eq_refl).
Defined.

Lemma code_actions_in_order_witness :
  contextDiagnostics (Sample.request [Sample.aDiagnostic]) <> [] /\
  Sample.lintsA (Lint (linter Sample.openWorld) ["a.js"]) =
    inr (mkLintResult [Sample.w1; Sample.w2; Sample.w4; Sample.w5] (AnalysisOf 1)) /\
  run Sample.lintsA
      (@getCodeActions Sample.converter Sample.commands
                       (Sample.request [Sample.aDiagnostic]))
      Sample.openWorld =
  mkRan (Done [@createApplyEditCommand Sample.converter Sample.commands
                 "Quick fix the 'no-var' warning" Sample.fixA;
               @createApplyEditCommand Sample.converter Sample.commands
                 "Rename it" Sample.fixA])
        Sample.openWorld [].
Proof.
  assert (Hctx : contextDiagnostics (Sample.request [Sample.aDiagnostic]) <> [])
    by discriminate.
  split; [exact Hctx | split; [reflexivity |]].
  exact (@code_actions_in_order Sample.converter Sample.commands Sample.lintsA
           (Sample.request [Sample.aDiagnostic]) Sample.openWorld
           (mkLintResult [Sample.w1; Sample.w2; Sample.w4; Sample.w5] (AnalysisOf 1))
           Hctx eq_refl).
Defined.

Lemma first_line_of_description_witness :
  hasLineFeed "Rename it" = false /\ firstLine "Rename it" = "Rename it".
Proof.
  split; [reflexivity |].
  exact (proj2 (proj2 (first_line_of_description "Rename it")) eq_refl).
Defined.

Lemma code_actions_are_apply_edit_commands_witness :
  outcome (run Sample.lintsA
               (@getCodeActions Sample.converter Sample.commands
                                (Sample.request [Sample.aDiagnostic]))
               Sample.openWorld) =
    Done [@createApplyEditCommand Sample.converter Sample.commands
            "Quick fix the 'no-var' warning" Sample.fixA;
          @createApplyEditCommand Sample.converter Sample.commands
            "Rename it" Sample.fixA] /\
  command (@createApplyEditCommand Sample.converter Sample.commands
             "Rename it" Sample.fixA) = "polymer-ide/applyEdit".
Proof.
  split; [reflexivity |].
  exact (proj1 (@code_actions_are_apply_edit_commands Sample.converter Sample.commands
                  Sample.lintsA (Sample.request [Sample.aDiagnostic]) Sample.openWorld
                  _ (@createApplyEditCommand Sample.converter Sample.commands
                       "Rename it" Sample.fixA)
                  eq_refl (or_intror (or_introl eq_refl)))).
Defined.

Lemma switch_out_shows_the_open_pass_witness :
  analyzeWholePackageOf Sample.toOpen = false /\
  analyzeWholePackageOf Sample.toPackage = true /\
  analyzeWholePackage (settings Sample.openWorld) = false /\
  Sample.lintsA (Lint (linter Sample.openWorld) ["a.js"]) =
    inr (mkLintResult [Sample.w1; Sample.w2; Sample.w4; Sample.w5] (AnalysisOf 1)) /\
  (forall v, shown (SampleMore.showing Sample.uriC) v <> [] ->
             In v (urisReportedWarningsFor Sample.openWorld)) /\
  shown (SampleMore.showing Sample.uriC ++
         sent (run Sample.lintsA
                   (@onSettingsChange Sample.converter Sample.toOpen Sample.toPackage)
                   Sample.openWorld))
        Sample.uriC = [].
Proof.
  assert (Hbefore : forall v, shown (SampleMore.showing Sample.uriC) v <> [] ->
                              In v (urisReportedWarningsFor Sample.openWorld))
    by (intros v Hv; right; left; symmetry; exact (shown_single _ _ _ Hv)).
  split; [reflexivity | split; [reflexivity | split; [reflexivity | split; [reflexivity |]]]].
  split; [exact Hbefore |].
  exact (@switch_out_shows_the_open_pass Sample.converter Sample.lintsA
           Sample.toOpen Sample.toPackage Sample.openWorld
           (mkLintResult [Sample.w1; Sample.w2; Sample.w4; Sample.w5] (AnalysisOf 1))
           (SampleMore.showing Sample.uriC)
           eq_refl eq_refl eq_refl eq_refl Hbefore Sample.uriC).
Defined.

Lemma switch_in_shows_the_package_pass_witness :
  analyzeWholePackageOf Sample.toPackage = true /\
  analyzeWholePackageOf Sample.toOpen = false /\
  analyzeWholePackage (settings Sample.switchedWorld) = true /\
  Sample.lintsA (LintPackage (linter Sample.switchedWorld)) =
    inr (mkLintResult [Sample.w1] (AnalysisOf 1)) /\
  (forall v, shown (SampleMore.showing Sample.uriB) v <> [] ->
             In v (documents Sample.switchedWorld)) /\
  shown (SampleMore.showing Sample.uriB ++
         sent (run Sample.lintsA
                   (@onSettingsChange Sample.converter Sample.toPackage Sample.toOpen)
                   Sample.switchedWorld))
        Sample.uriB = [].
Proof.
  assert (Hbefore : forall v, shown (SampleMore.showing Sample.uriB) v <> [] ->
                              In v (documents Sample.switchedWorld))
    by (intros v Hv; right; left; symmetry; exact (shown_single _ _ _ Hv)).
  split; [reflexivity | split; [reflexivity | split; [reflexivity | split; [reflexivity |]]]].
  split; [exact Hbefore |].
  exact (proj1 (@switch_in_shows_the_package_pass Sample.converter Sample.lintsA
                  Sample.toPackage Sample.toOpen Sample.switchedWorld
                  (mkLintResult [Sample.w1] (AnalysisOf 1))
                  (SampleMore.showing Sample.uriB)
                  eq_refl eq_refl eq_refl eq_refl Hbefore) Sample.uriB).
Defined.
